(** * Souent backend: memory layering and admission control

    A shallow embedding of the parts of the Souent backend that carry
    invariants:

    - [app/utils/rate_limiter.py]   the token-bucket admission controller,
    - [app/utils/validation.py]     the identifier validators,
    - [app/services/memory/memory_service.py] and [app/models/schemas.py]
      the three memory layers (session, preferences, canon) and the
      context weave that composes them,
    - [app/api/memory.py], [app/api/chat.py]  the endpoints over them,
    - [app/services/ai_engine/engine.py]      the prompt handed to the
      provider.

    Dictionaries are modelled by stdpp's [gmap]; the file system and the
    Redis server by explicit state; exceptions by an error result.

    The admission controller is embedded twice.  [RateLimiterDouble]
    computes as the code does, in IEEE 754 binary64 ([float]); what is
    stated there holds of every rounding the code performs.
    [RateLimiter] reads the same lines over the exact rationals ([Q]); it
    carries the facts of order (bounds, bursts of whole tokens, the frame
    between identities, the cleanup) that do not turn on a rounding.

    The memory service is embedded twice as well.  In [MemoryService] a
    file write goes through, which is all that the in-process contracts
    of the session log, the canon guards and the weave need.
    [MemoryServiceIO] and [RoutesIO] take the outcome of each file write
    as an input of the call (written, refused by the operating system, or
    broken off after the file was opened), for the statements about what
    is on disk afterwards. *)

From Stdlib Require Import ZArith QArith Qminmax String Ascii List Lia Lqa.
From Stdlib Require Import DecimalString Floats.
From stdpp Require Import gmap strings.

Open Scope string_scope.

Set Warnings "-register-all".

(** ** Settings ([app/core/config.py])

    Only the fields read by the modelled code. *)

Record Settings := {
  MEMORY_STORAGE_TYPE : string;
  CANON_MEMORY_PATH : string;
  USER_PREFERENCES_PATH : string;
  SESSION_MEMORY_PATH : string;
  RATE_LIMIT_REQUESTS : Z;
  RATE_LIMIT_PERIOD : Z
}.

(** The defaults declared by [Settings]. *)
Definition default_settings : Settings := {|
  MEMORY_STORAGE_TYPE := "file";
  CANON_MEMORY_PATH := "./data/canon_memory.json";
  USER_PREFERENCES_PATH := "./data/user_preferences";
  SESSION_MEMORY_PATH := "./data/sessions";
  RATE_LIMIT_REQUESTS := 60;
  RATE_LIMIT_PERIOD := 60
|}.

(** ** Admission controller, over the rationals ([app/utils/rate_limiter.py])

    Tokens, clock readings and the refill rate are exact rationals here;
    [RateLimiterDouble] below has them as the doubles of the code. *)

Module RateLimiter.

(** [Dict[str, Tuple[float, float]]]: IP -> (tokens, last_refill_time). *)
Abbreviation buckets := (gmap string (Q * Q)).

Record RateLimiterMiddleware := {
  _buckets : buckets;
  max_tokens : Z;
  refill_rate : Q
}.

Definition with_buckets (self : RateLimiterMiddleware) (b : buckets)
  : RateLimiterMiddleware :=
  {| _buckets := b; max_tokens := max_tokens self; refill_rate := refill_rate self |}.

(** Python's [min(a, b)]: the first argument unless the second is
    strictly smaller. *)
Definition py_min (a b : Q) : Q := if Qle_bool a b then a else b.

Section Limiter.

Variable settings : Settings.

(** [__init__]: the division raises [ZeroDivisionError] for a zero period,
    in which case no middleware is constructed. *)
Definition init : option RateLimiterMiddleware :=
  if (RATE_LIMIT_PERIOD settings =? 0)%Z then None
  else Some {| _buckets := ∅;
               max_tokens := RATE_LIMIT_REQUESTS settings;
               refill_rate := (inject_Z (RATE_LIMIT_REQUESTS settings)
                               / inject_Z (RATE_LIMIT_PERIOD settings))%Q |}.

(** The [defaultdict] factory: a full bucket stamped with the clock read
    when the factory runs. *)
Definition default_bucket (factory_time : Q) : Q * Q :=
  (inject_Z (RATE_LIMIT_REQUESTS settings), factory_time).

(** [self._buckets[client_ip]] on a [defaultdict]: a missing key is
    created from the factory and stored before it is returned. *)
Definition buckets_getitem (factory_time : Q) (client_ip : string) (b : buckets)
  : (Q * Q) * buckets :=
  match b !! client_ip with
  | Some bucket => (bucket, b)
  | None => (default_bucket factory_time,
             <[client_ip := default_bucket factory_time]> b)
  end.

(** [_check_rate_limit].  [current_time] is the clock read at the top of
    the call, [factory_time] the one the factory would read for a new
    identity. *)
Definition _check_rate_limit (current_time factory_time : Q) (client_ip : string)
    (self : RateLimiterMiddleware) : RateLimiterMiddleware * (bool * Q) :=
  let '((tokens, last_refill), b) :=
    buckets_getitem factory_time client_ip (_buckets self) in
  let time_elapsed := (current_time - last_refill)%Q in
  let tokens_to_add := (time_elapsed * refill_rate self)%Q in
  let tokens := py_min (inject_Z (max_tokens self)) (tokens + tokens_to_add)%Q in
  if Qle_bool 1 tokens then
    let tokens := (tokens - 1)%Q in
    (with_buckets self (<[client_ip := (tokens, current_time)]> b), (true, tokens))
  else
    (with_buckets self (<[client_ip := (tokens, last_refill)]> b), (false, tokens)).

(** A run of calls from one identity, oldest first; each call carries its
    two clock readings. *)
Fixpoint allow_calls (client_ip : string) (calls : list (Q * Q))
    (self : RateLimiterMiddleware) : RateLimiterMiddleware * list (bool * Q) :=
  match calls with
  | [] => (self, [])
  | (current_time, factory_time) :: rest =>
      let '(self1, out) := _check_rate_limit current_time factory_time client_ip self in
      let '(self2, outs) := allow_calls client_ip rest self1 in
      (self2, out :: outs)
  end.

(** What [dispatch] does with a request. *)
Inductive dispatched :=
| Bypassed                                   (* exempt path, handed on as is *)
| Rejected (status_code : Z) (retry_after : Z)
| Forwarded (limit : Z) (remaining : Z).     (* handed on, headers added *)

(** Python's [int(x)] on a float: truncation toward zero. *)
Definition py_int (x : Q) : Z := Z.quot (Qnum x) (Zpos (Qden x)).

(** [dispatch], up to the handler it wraps: [path] is [request.url.path],
    [client_host] is [request.client.host] when the request has a client.
    The [X-RateLimit-Reset] header, a third clock reading, is left out. *)
Definition dispatch (path : string) (client_host : option string)
    (current_time factory_time : Q) (self : RateLimiterMiddleware)
  : RateLimiterMiddleware * dispatched :=
  if existsb (String.eqb path) ["/"; "/health"; "/api/v1/system/health"] then
    (self, Bypassed)
  else
    let client_ip := default "unknown" client_host in
    let '(self, (allowed, remaining)) :=
      _check_rate_limit current_time factory_time client_ip self in
    if negb allowed then (self, Rejected 429 (RATE_LIMIT_PERIOD settings))
    else (self, Forwarded (RATE_LIMIT_REQUESTS settings) (py_int remaining)).


(** The bucket a call works on: the stored one, or the factory's. *)
Definition bucket_of (factory_time : Q) (client_ip : string)
    (self : RateLimiterMiddleware) : Q * Q :=
  default (default_bucket factory_time) (_buckets self !! client_ip).

End Limiter.

End RateLimiter.

(** ** Admission controller, in doubles ([app/utils/rate_limiter.py])

    The same lines with Python's [float]: [+], [-], [*], [/] and the
    comparisons are those of IEEE 754 binary64, rounding to nearest, ties
    to even. *)

Module RateLimiterDouble.

(** [Dict[str, Tuple[float, float]]]: IP -> (tokens, last_refill_time). *)
Abbreviation buckets := (gmap string (float * float)).

Record RateLimiterMiddleware := {
  _buckets : buckets;
  max_tokens : Z;          (* [settings.RATE_LIMIT_REQUESTS], an [int] *)
  refill_rate : float
}.

Definition with_buckets (self : RateLimiterMiddleware) (b : buckets)
  : RateLimiterMiddleware :=
  {| _buckets := b; max_tokens := max_tokens self; refill_rate := refill_rate self |}.

(** [float(n)] for an [int]: the nearest double, ties to even. *)
Definition float_of_int (n : Z) : float :=
  SF2Prim (SpecFloat.binary_normalize prec emax n 0 false).

(** An [int] that a double holds exactly.  For such an [int] the mixed
    operations of the code ([int < float], [int >= float], [int - float],
    [int / int]) give what the operations on [float_of_int] give; the
    statements keep to this range. *)
Definition exact_int (n : Z) : Prop := (Z.abs n <= 2 ^ 53)%Z.

(** Python's [min(a, b)]: the second argument when it is strictly smaller
    than the first, else the first (also when one of them is not a
    number). *)
Definition py_min (a b : float) : float := if (b <? a)%float then b else a.

Section Limiter.

Variable settings : Settings.

(** [__init__]: the division raises [ZeroDivisionError] for a zero period,
    in which case no middleware is constructed. *)
Definition init : option RateLimiterMiddleware :=
  if (RATE_LIMIT_PERIOD settings =? 0)%Z then None
  else Some {| _buckets := ∅;
               max_tokens := RATE_LIMIT_REQUESTS settings;
               refill_rate := (float_of_int (RATE_LIMIT_REQUESTS settings)
                               / float_of_int (RATE_LIMIT_PERIOD settings))%float |}.

(** The [defaultdict] factory: a full bucket stamped with the clock read
    when the factory runs. *)
Definition default_bucket (factory_time : float) : float * float :=
  (float_of_int (RATE_LIMIT_REQUESTS settings), factory_time).

(** [self._buckets[client_ip]] on a [defaultdict]. *)
Definition buckets_getitem (factory_time : float) (client_ip : string) (b : buckets)
  : (float * float) * buckets :=
  match b !! client_ip with
  | Some bucket => (bucket, b)
  | None => (default_bucket factory_time,
             <[client_ip := default_bucket factory_time]> b)
  end.

(** [_check_rate_limit].  [current_time] is the clock read at the top of
    the call, [factory_time] the one the factory would read for a new
    identity. *)
Definition _check_rate_limit (current_time factory_time : float) (client_ip : string)
    (self : RateLimiterMiddleware) : RateLimiterMiddleware * (bool * float) :=
  let '((tokens, last_refill), b) :=
    buckets_getitem factory_time client_ip (_buckets self) in
  let time_elapsed := (current_time - last_refill)%float in
  let tokens_to_add := (time_elapsed * refill_rate self)%float in
  let tokens := py_min (float_of_int (max_tokens self)) (tokens + tokens_to_add)%float in
  if (1 <=? tokens)%float then
    let tokens := (tokens - 1)%float in
    (with_buckets self (<[client_ip := (tokens, current_time)]> b), (true, tokens))
  else
    (with_buckets self (<[client_ip := (tokens, last_refill)]> b), (false, tokens)).

(** A run of calls from one identity, oldest first; each call carries its
    two clock readings. *)
Fixpoint allow_calls (client_ip : string) (calls : list (float * float))
    (self : RateLimiterMiddleware) : RateLimiterMiddleware * list (bool * float) :=
  match calls with
  | [] => (self, [])
  | (current_time, factory_time) :: rest =>
      let '(self1, out) := _check_rate_limit current_time factory_time client_ip self in
      let '(self2, outs) := allow_calls client_ip rest self1 in
      (self2, out :: outs)
  end.

(** The bucket a call works on: the stored one, or the factory's. *)
Definition bucket_of (factory_time : float) (client_ip : string)
    (self : RateLimiterMiddleware) : float * float :=
  default (default_bucket factory_time) (_buckets self !! client_ip).

End Limiter.

End RateLimiterDouble.

(** ** Identifier validation ([app/utils/validation.py]) *)

Module Validation.

Definition MAX_SESSION_ID_LENGTH : nat := 64.
Definition MAX_USER_ID_LENGTH : nat := 128.

Definition in_range (lo hi c : ascii) : bool :=
  ((N_of_ascii lo <=? N_of_ascii c) && (N_of_ascii c <=? N_of_ascii hi))%N.

Definition is_lower (c : ascii) : bool := in_range "a" "z" c.
Definition is_upper (c : ascii) : bool := in_range "A" "Z" c.
Definition is_digit (c : ascii) : bool := in_range "0" "9" c.

(** The character class [[a-zA-Z0-9_-]]. *)
Definition session_id_char (c : ascii) : bool :=
  is_lower c || is_upper c || is_digit c || Ascii.eqb c "_" || Ascii.eqb c "-".

(** The character class [[a-zA-Z0-9_@.-]]. *)
Definition user_id_char (c : ascii) : bool :=
  is_lower c || is_upper c || is_digit c || Ascii.eqb c "_" || Ascii.eqb c "@"
  || Ascii.eqb c "." || Ascii.eqb c "-".

Definition newline : ascii := ascii_of_nat 10.

(** The one-character string holding a newline. *)
Definition nl : string := String newline EmptyString.

(** Python's [$]: the end of the string, or just before a final newline. *)
Definition at_dollar (s : string) : bool :=
  match s with
  | EmptyString => true
  | String c EmptyString => Ascii.eqb c newline
  | _ => false
  end.

(** [[cls]*$] (greedy) at the head of [s]. *)
Fixpoint class_star_dollar (cls : ascii -> bool) (s : string) : bool :=
  match s with
  | EmptyString => true
  | String c rest => if cls c then class_star_dollar cls rest else at_dollar s
  end.

(** [re.compile(r'^[cls]+$').match(s)] as a truth value. *)
Definition class_plus_dollar (cls : ascii -> bool) (s : string) : bool :=
  match s with
  | EmptyString => false
  | String c rest => cls c && class_star_dollar cls rest
  end.

Definition SESSION_ID_PATTERN : string -> bool := class_plus_dollar session_id_char.
Definition USER_ID_PATTERN : string -> bool := class_plus_dollar user_id_char.

Definition is_empty (s : string) : bool :=
  match s with EmptyString => true | _ => false end.

Definition validate_session_id (session_id : string) : bool * option string :=
  if is_empty session_id then
    (false, Some "Session ID cannot be empty")
  else if (MAX_SESSION_ID_LENGTH <? String.length session_id)%nat then
    (false, Some "Session ID exceeds maximum length of 64")
  else if negb (SESSION_ID_PATTERN session_id) then
    (false, Some "Session ID contains invalid characters")
  else (true, None).

Definition validate_user_id (user_id : string) : bool * option string :=
  if is_empty user_id then
    (false, Some "User ID cannot be empty")
  else if (MAX_USER_ID_LENGTH <? String.length user_id)%nat then
    (false, Some "User ID exceeds maximum length of 128")
  else if negb (USER_ID_PATTERN user_id) then
    (false, Some "User ID contains invalid characters")
  else (true, None).

(** [check_content_safety].  A Python string is a sequence of code
    points, here a list over an arbitrary character type; which code
    points [str.split()] takes for whitespace, and what [str.lower()]
    makes of a string, are left to the Unicode tables of the interpreter. *)
Section ContentSafety.

Context {char : Type} `{EqDecision char}.
Variable is_space : char -> bool.
Variable space : char.
Variable lower : list char -> list char.

(** [content.split()]: the maximal runs of non-whitespace, in order.
    [word] is the run being read, last character first. *)
Fixpoint split_from (word : list char) (content : list char) : list (list char) :=
  match content with
  | [] => match word with [] => [] | _ => [rev word] end
  | c :: rest =>
      if is_space c then
        match word with
        | [] => split_from [] rest
        | _ => rev word :: split_from [] rest
        end
      else split_from (c :: word) rest
  end.

Definition split (content : list char) : list (list char) := split_from [] content.

(** [len(set(content.lower().replace(' ', '')))] *)
Definition unique_chars (content : list char) : nat :=
  length (remove_dups
            (filter (fun c => c <> space) (lower content))).

Definition check_content_safety (content : list char) : bool * option string :=
  if existsb (fun word => (200 <? length word)%nat) (split content) then
    (false, Some "Content contains unusually long words")
  else if (100 <? length content)%nat then
    if (unique_chars content <? 10)%nat && (500 <? length content)%nat then
      (false, Some "Content appears to be repetitive")
    else (true, None)
  else (true, None).

End ContentSafety.

End Validation.

(** ** Data models ([app/models/schemas.py]) *)

Module Schemas.

Inductive AuthorizationTier := BASIC | ADVISORY | ADMIN_READY.

Inductive MessageRole := USER | ASSISTANT | SYSTEM.

(** Equality of enum members. *)
Definition AuthorizationTier_eqb (a b : AuthorizationTier) : bool :=
  match a, b with
  | BASIC, BASIC | ADVISORY, ADVISORY | ADMIN_READY, ADMIN_READY => true
  | _, _ => false
  end.

(** [role.value] and its inverse, the enum constructor [MessageRole(s)]. *)
Definition MessageRole_value (r : MessageRole) : string :=
  match r with USER => "user" | ASSISTANT => "assistant" | SYSTEM => "system" end.

Definition MessageRole_of_value (s : string) : option MessageRole :=
  if String.eqb s "user" then Some USER
  else if String.eqb s "assistant" then Some ASSISTANT
  else if String.eqb s "system" then Some SYSTEM
  else None.

(** A naive UTC [datetime], as microseconds since the epoch. *)
Definition datetime := Z.

(** Python values of type [Any] as they travel through JSON.  A
    [VDatetime t] stands both for the [datetime] object and for the text
    that [isoformat] / [str] give it, which [fromisoformat] reads back;
    any other text is a [VStr]. *)
Inductive value :=
| VNone
| VBool (b : bool)
| VInt (n : Z)
| VFloat (q : Q)
| VStr (s : string)
| VDatetime (t : datetime)
| VList (l : list value)
| VDict (d : list (string * value)).

Record Message := {
  role : MessageRole;
  content : string;
  timestamp : datetime;
  metadata : option value
}.

Record UserPreferences := {
  user_id : string;
  tone_preference : option string;
  max_response_length : option Z;
  enable_clarification_questions : bool;
  custom_settings : option value;
  updated_at : datetime
}.

(** The declared types of [CanonMemory] ([Dict], [bool], [str],
    [Optional[datetime]]) are enforced by the constructor only: pydantic
    does not validate on attribute assignment, so after [setattr] a field
    holds whatever value it was given. *)
Record CanonMemory := {
  system_knowledge : value;
  model_info : value;
  locked : value;
  version : value;
  last_updated : value
}.

Record MemoryContext := {
  session_memory : list Message;
  user_preferences : option UserPreferences;
  canon_memory : option CanonMemory;
  authorization_tier : AuthorizationTier
}.

Definition of_option {A} (f : A -> value) (o : option A) : value :=
  match o with Some a => f a | None => VNone end.

(** [preferences.model_dump()] *)
Definition UserPreferences_model_dump (p : UserPreferences) : value :=
  VDict [ ("user_id", VStr (user_id p));
          ("tone_preference", of_option VStr (tone_preference p));
          ("max_response_length", of_option VInt (max_response_length p));
          ("enable_clarification_questions", VBool (enable_clarification_questions p));
          ("custom_settings", of_option id (custom_settings p));
          ("updated_at", VDatetime (updated_at p)) ].

(** [canon.model_dump()] *)
Definition CanonMemory_model_dump (c : CanonMemory) : value :=
  VDict [ ("system_knowledge", system_knowledge c);
          ("model_info", model_info c);
          ("locked", locked c);
          ("version", version c);
          ("last_updated", last_updated c) ].

(** The field names declared by [CanonMemory]. *)
Definition CanonMemory_fields : list string :=
  ["system_knowledge"; "model_info"; "locked"; "version"; "last_updated"].

End Schemas.

(** ** Memory service ([app/services/memory/memory_service.py]) *)

Module MemoryService.
Import Schemas.

(** *** The store *)

(** The exceptions the modelled code can meet. *)
Inductive exn :=
| ConnectionError      (* redis: the server does not answer *)
| ValueError
| TypeError
| KeyError
| ValidationError
| OSError              (* the operating system refuses a file operation *)
| RecursionError.      (* [json.dump] on a value nested too deeply *)

Inductive result (A : Type) :=
| Ok (a : A)
| Raise (e : exn).
Arguments Ok {A} a.
Arguments Raise {A} e.

(** What a file or a Redis key holds: JSON text, kept as the value it
    parses to, or text that [json.load] rejects. *)
Inductive file :=
| Garbage
| Json (v : value).

(** The [MemoryService] object ([storage_type], [_sessions]) together with
    the durable stores it talks to: the file system, by path, and the
    Redis server, which either answers or makes every command raise
    [ConnectionError].  The files are keyed by the text of their path:
    two texts that the operating system resolves to one file
    ([a/./b] and [a/b]) are two entries here, so a statement that tells
    two files apart keeps to names without a slash. *)
Record World := {
  storage_type : string;
  _sessions : gmap string (list Message);
  fs : gmap string file;
  redis_up : bool;
  redis_db : gmap string file
}.

Definition with_sessions (w : World) (s : gmap string (list Message)) : World :=
  {| storage_type := storage_type w; _sessions := s; fs := fs w;
     redis_up := redis_up w; redis_db := redis_db w |}.

Definition with_fs (w : World) (f : gmap string file) : World :=
  {| storage_type := storage_type w; _sessions := _sessions w; fs := f;
     redis_up := redis_up w; redis_db := redis_db w |}.

Definition with_redis_db (w : World) (d : gmap string file) : World :=
  {| storage_type := storage_type w; _sessions := _sessions w; fs := fs w;
     redis_up := redis_up w; redis_db := d |}.

(** A new process over the same durable stores and with the same storage
    type: [__init__] starts from an empty session cache. *)
Definition fresh_process (w : World) : World := with_sessions w ∅.

(** Computations that read and write the world and may raise. *)
Definition M (A : Type) : Type := World -> World * result A.

#[global] Instance M_ret : MRet M := fun A a w => (w, Ok a).

#[global] Instance M_bind : MBind M := fun A B f m w =>
  match m w with
  | (w', Ok a) => f a w'
  | (w', Raise e) => (w', Raise e)
  end.

(** [try: body except Exception: handler] *)
Definition try_except {A} (body : M A) (handler : M A) : M A := fun w =>
  match body w with
  | (w', Ok a) => (w', Ok a)
  | (w', Raise _) => handler w'
  end.

Definition lift {A} (r : result A) : M A := fun w => (w, r).

Definition get_world : M World := fun w => (w, Ok w).

(** *** File system and Redis primitives *)

Definition starts_with_slash (s : string) : bool :=
  match s with String c _ => Ascii.eqb c "/" | EmptyString => false end.

Fixpoint ends_with_slash (s : string) : bool :=
  match s with
  | EmptyString => false
  | String c EmptyString => Ascii.eqb c "/"
  | String _ rest => ends_with_slash rest
  end.

(** [os.path.join(a, b)] on POSIX. *)
Definition path_join (a b : string) : string :=
  if starts_with_slash b then b
  else if Validation.is_empty a || ends_with_slash a then a ++ b
  else a ++ "/" ++ b.

(** [with open(path, 'w') as f: json.dump(data, f, ...)], when the file
    opens and the dump completes.  ([MemoryServiceIO.write_json] has the
    other outcomes.) *)
Definition write_json (path : string) (data : value) : M unit := fun w =>
  (with_fs w (<[path := Json data]> (fs w)), Ok tt).

(** [os.remove(path)] for a path that exists. *)
Definition remove (path : string) : M unit := fun w =>
  (with_fs w (delete path (fs w)), Ok tt).

(** [redis_client.get(key)] *)
Definition redis_get (key : string) : M (option file) := fun w =>
  if redis_up w then (w, Ok (redis_db w !! key)) else (w, Raise ConnectionError).

(** [redis_client.set(key, json.dumps(data))] and
    [redis_client.setex(key, 3600, json.dumps(data))].  The server drops a
    key set with [setex] an hour later; that is the server's doing, after
    the call, and is not modelled: what is stated of a session key holds
    for as long as the server keeps it. *)
Definition redis_set (key : string) (data : value) : M unit := fun w =>
  if redis_up w then (with_redis_db w (<[key := Json data]> (redis_db w)), Ok tt)
  else (w, Raise ConnectionError).

(** [redis_client.delete(key)] *)
Definition redis_delete (key : string) : M unit := fun w =>
  if redis_up w then (with_redis_db w (delete key (redis_db w)), Ok tt)
  else (w, Raise ConnectionError).

(** *** JSON helpers *)

(** [d[key]] on a parsed JSON value: [KeyError] for a missing key,
    [TypeError] when [d] is not a dict. *)
Fixpoint assoc (key : string) (d : list (string * value)) : option value :=
  match d with
  | [] => None
  | (k, v) :: rest => if String.eqb k key then Some v else assoc key rest
  end.

Definition getitem (d : value) (key : string) : result value :=
  match d with
  | VDict l => match assoc key l with Some v => Ok v | None => Raise KeyError end
  | _ => Raise TypeError
  end.

(** [for msg in messages_data]: lists yield their items, dicts their keys,
    strings their characters; other JSON values are not iterable. *)
Definition iterate (v : value) : result (list value) :=
  match v with
  | VList l => Ok l
  | VDict d => Ok (map (fun kv => VStr (fst kv)) d)
  | VStr s => Ok (map (fun c => VStr (String c EmptyString)) (list_ascii_of_string s))
  | _ => Raise TypeError
  end.

Definition result_bind {A B} (r : result A) (f : A -> result B) : result B :=
  match r with Ok a => f a | Raise e => Raise e end.

Fixpoint result_map {A B} (f : A -> result B) (l : list A) : result (list B) :=
  match l with
  | [] => Ok []
  | a :: rest =>
      result_bind (f a) (fun b =>
      result_bind (result_map f rest) (fun bs => Ok (b :: bs)))
  end.

(** One entry of a stored session, as [_save_session_file] and
    [_save_session_redis] write it. *)
Definition dump_message (msg : Message) : value :=
  VDict [ ("role", VStr (MessageRole_value (role msg)));
          ("content", VStr (content msg));
          ("timestamp", VDatetime (timestamp msg)) ].

(** One entry read back:
    [Message(role=MessageRole(msg["role"]), content=msg["content"],
             timestamp=datetime.fromisoformat(msg["timestamp"]))]. *)
Definition load_message (msg : value) : result Message :=
  result_bind (getitem msg "role") (fun r =>
  result_bind (match r with
               | VStr s => match MessageRole_of_value s with
                           | Some r => Ok r
                           | None => Raise ValueError
                           end
               | _ => Raise ValueError
               end) (fun r =>
  result_bind (getitem msg "content") (fun c =>
  result_bind (getitem msg "timestamp") (fun t =>
  result_bind (match t with
               | VDatetime t => Ok t
               | VStr _ => Raise ValueError
               | _ => Raise TypeError
               end) (fun t =>
  match c with
  | VStr c => Ok {| role := r; content := c; timestamp := t; metadata := None |}
  | _ => Raise ValidationError
  end))))).

(** [json.load] followed by the list comprehension over the entries. *)
Definition load_messages (f : file) : result (list Message) :=
  match f with
  | Garbage => Raise ValueError
  | Json messages_data =>
      result_bind (iterate messages_data) (result_map load_message)
  end.

(** *** The service *)

Section Service.

Variable settings : Settings.

(** pydantic's constructors [UserPreferences] and [CanonMemory] applied
    to the keywords of a parsed JSON value: the validated record, or
    [None] when the constructor raises.  pydantic is not part of the
    repository; its validation is left abstract. *)
Variable UserPreferences_new : value -> option UserPreferences.
Variable CanonMemory_new : value -> option CanonMemory.

(** The public names, other than the declared fields, that a
    [CanonMemory] object inherits from pydantic's [BaseModel] (methods and
    properties such as [model_dump], which the service itself calls).
    Names that start with an underscore ([__dict__], [__class__], ...)
    are another matter: pydantic hands their assignment on to
    [object.__setattr__].  They are not modelled: [BaseModel_attr] is to
    be read on public names. *)
Variable BaseModel_attr : string -> bool.

(** **** Session memory *)

Definition session_path (session_id : string) : string :=
  path_join (SESSION_MEMORY_PATH settings) (session_id ++ ".json").

Definition session_key (session_id : string) : string := "session:" ++ session_id.

(** [[{...} for msg in self._sessions.get(session_id, [])]] *)
Definition messages_data (session_id : string) (w : World) : value :=
  VList (map dump_message (default [] (_sessions w !! session_id))).

Definition _save_session_file (session_id : string) : M unit :=
  w ← get_world;
  write_json (session_path session_id) (messages_data session_id w).

Definition _save_session_redis (session_id : string) : M unit :=
  w ← get_world;
  redis_set (session_key session_id) (messages_data session_id w).

(** The tail shared by both loaders: parse, cache and return, or [[]] on
    any exception. *)
Definition load_and_cache (session_id : string) (f : file) : M (list Message) := fun w =>
  match load_messages f with
  | Ok messages => (with_sessions w (<[session_id := messages]> (_sessions w)), Ok messages)
  | Raise _ => (w, Ok [])
  end.

Definition _load_session_file (session_id : string) : M (list Message) := fun w =>
  match fs w !! session_path session_id with
  | None => (w, Ok [])
  | Some f => load_and_cache session_id f w
  end.

(** The [get] sits outside the [try]. *)
Definition _load_session_redis (session_id : string) : M (list Message) :=
  data ← redis_get (session_key session_id);
  match data with
  | None => mret []
  | Some f => load_and_cache session_id f
  end.

Definition add_message_to_session (now : datetime) (session_id : string)
    (role : MessageRole) (content : string) : M unit := fun w =>
  let message := {| role := role; content := content; timestamp := now;
                    metadata := None |} in
  let log := default [] (_sessions w !! session_id) in
  let w := with_sessions w (<[session_id := (log ++ [message])%list]> (_sessions w)) in
  if String.eqb (storage_type w) "file" then _save_session_file session_id w
  else if String.eqb (storage_type w) "redis" then _save_session_redis session_id w
  else (w, Ok tt).

Definition get_session_history (session_id : string) : M (list Message) := fun w =>
  match _sessions w !! session_id with
  | Some log => (w, Ok log)
  | None =>
      if String.eqb (storage_type w) "file" then _load_session_file session_id w
      else if String.eqb (storage_type w) "redis" then _load_session_redis session_id w
      else (w, Ok [])
  end.

Definition clear_session (session_id : string) : M unit := fun w =>
  let w := with_sessions w (delete session_id (_sessions w)) in
  if String.eqb (storage_type w) "file" then
    match fs w !! session_path session_id with
    | Some _ => remove (session_path session_id) w
    | None => (w, Ok tt)
    end
  else if String.eqb (storage_type w) "redis" then
    redis_delete (session_key session_id) w
  else (w, Ok tt).

(** **** User preferences *)

Definition preferences_path (user_id : string) : string :=
  path_join (USER_PREFERENCES_PATH settings) (user_id ++ ".json").

Definition preferences_key (user_id : string) : string := "preferences:" ++ user_id.

Definition _save_preferences_file (preferences : UserPreferences) : M unit :=
  write_json (preferences_path (user_id preferences))
             (UserPreferences_model_dump preferences).

Definition _save_preferences_redis (preferences : UserPreferences) : M unit :=
  redis_set (preferences_key (user_id preferences))
            (UserPreferences_model_dump preferences).

Definition _load_preferences_file (user_id : string) : M (option UserPreferences) := fun w =>
  match fs w !! preferences_path user_id with
  | None => (w, Ok None)
  | Some Garbage => (w, Ok None)
  | Some (Json data) => (w, Ok (UserPreferences_new data))
  end.

Definition _load_preferences_redis (user_id : string) : M (option UserPreferences) :=
  data ← redis_get (preferences_key user_id);
  match data with
  | None => mret None
  | Some Garbage => mret None
  | Some (Json data) => mret (UserPreferences_new data)
  end.

Definition get_user_preferences (user_id : string) : M (option UserPreferences) := fun w =>
  if String.eqb (storage_type w) "file" then _load_preferences_file user_id w
  else if String.eqb (storage_type w) "redis" then _load_preferences_redis user_id w
  else (w, Ok None).

Definition stamp (now : datetime) (p : UserPreferences) : UserPreferences :=
  {| user_id := user_id p; tone_preference := tone_preference p;
     max_response_length := max_response_length p;
     enable_clarification_questions := enable_clarification_questions p;
     custom_settings := custom_settings p; updated_at := now |}.

(** [save_user_preferences] stamps the object it was handed, which the
    caller keeps: the stamped object is the result here. *)
Definition save_user_preferences (now : datetime) (preferences : UserPreferences)
  : M UserPreferences := fun w =>
  let preferences := stamp now preferences in
  let '(w, r) :=
    if String.eqb (storage_type w) "file" then _save_preferences_file preferences w
    else if String.eqb (storage_type w) "redis" then _save_preferences_redis preferences w
    else (w, Ok tt) in
  (w, match r with Ok _ => Ok preferences | Raise e => Raise e end).

(** **** Canon memory *)

Definition get_canon_memory : M (option CanonMemory) := fun w =>
  match fs w !! CANON_MEMORY_PATH settings with
  | Some (Json data) => (w, Ok (CanonMemory_new data))
  | Some Garbage => (w, Ok None)
  | None => (w, Ok None)
  end.

Definition is_field (key : string) : bool :=
  existsb (String.eqb key) CanonMemory_fields.

(** [hasattr(canon, key)] *)
Definition hasattr (canon : CanonMemory) (key : string) : bool :=
  is_field key || BaseModel_attr key.

(** [setattr(canon, key, value)] for a name that [hasattr] accepts:
    a declared field is assigned without validation; for any other public
    name pydantic raises [ValueError] (object has no field). *)
Definition setattr (canon : CanonMemory) (key : string) (v : value)
  : result CanonMemory :=
  if String.eqb key "system_knowledge" then
    Ok {| system_knowledge := v; model_info := model_info canon;
          locked := locked canon; version := version canon;
          last_updated := last_updated canon |}
  else if String.eqb key "model_info" then
    Ok {| system_knowledge := system_knowledge canon; model_info := v;
          locked := locked canon; version := version canon;
          last_updated := last_updated canon |}
  else if String.eqb key "locked" then
    Ok {| system_knowledge := system_knowledge canon; model_info := model_info canon;
          locked := v; version := version canon;
          last_updated := last_updated canon |}
  else if String.eqb key "version" then
    Ok {| system_knowledge := system_knowledge canon; model_info := model_info canon;
          locked := locked canon; version := v;
          last_updated := last_updated canon |}
  else if String.eqb key "last_updated" then
    Ok {| system_knowledge := system_knowledge canon; model_info := model_info canon;
          locked := locked canon; version := version canon;
          last_updated := v |}
  else Raise ValueError.

(** [for key, value in updates.items(): if hasattr(...): setattr(...)];
    [updates] lists the items of the dict in iteration order. *)
Fixpoint apply_updates (updates : list (string * value)) (canon : CanonMemory)
  : result CanonMemory :=
  match updates with
  | [] => Ok canon
  | (key, v) :: rest =>
      if hasattr canon key then
        result_bind (setattr canon key v) (apply_updates rest)
      else apply_updates rest canon
  end.

Definition update_canon_memory (now : datetime) (updates : list (string * value))
    (authorization_tier : AuthorizationTier) : M bool :=
  if negb (AuthorizationTier_eqb authorization_tier ADMIN_READY) then mret false
  else
    try_except
      (canon ← get_canon_memory;
       match canon with
       | None => mret false
       | Some canon =>
           canon ← lift (apply_updates updates canon);
           canon ← lift (setattr canon "last_updated" (VDatetime now));
           write_json (CANON_MEMORY_PATH settings) (CanonMemory_model_dump canon);;
           mret true
       end)
      (mret false).

(** **** Context weave *)

Definition build_memory_context (session_id : string) (user_id : option string)
    (authorization_tier : AuthorizationTier) : M MemoryContext :=
  session_memory ← get_session_history session_id;
  user_preferences ←
    match user_id with
    | None => mret None
    | Some user_id =>
        if Validation.is_empty user_id then mret None
        else get_user_preferences user_id
    end;
  canon_memory ← get_canon_memory;
  mret {| session_memory := session_memory;
          user_preferences := user_preferences;
          canon_memory := canon_memory;
          authorization_tier := authorization_tier |}.

End Service.

(** **** Session identifiers *)

(** [uuid.uuid4()] as the integer of a [UUID] built from 16 random bytes
    ([rand] is their big-endian value) with the RFC 4122 variant and
    version 4 stamped in. *)
Definition uuid4 (rand : Z) : Z :=
  let int := rand in
  let int := Z.land int (Z.lnot (Z.shiftl 0xc000 48)) in
  let int := Z.lor int (Z.shiftl 0x8000 48) in
  let int := Z.land int (Z.lnot (Z.shiftl 0xf000 64)) in
  Z.lor int (Z.shiftl 4 76).

Definition hex_digit (d : Z) : ascii :=
  nth (Z.to_nat d) (list_ascii_of_string "0123456789abcdef") "0"%char.

(** The lowercase hexadecimal characters, [[0-9a-f]]. *)
Definition is_lower_hex (c : ascii) : bool :=
  Validation.is_digit c || Validation.in_range "a" "f" c.

(** [UUID.hex]: the 32 hexadecimal digits of a 128-bit integer, most
    significant first. *)
Definition hex (int : Z) : string :=
  string_of_list_ascii
    (map (fun i => hex_digit (Z.land (Z.shiftr int (4 * Z.of_nat i)) 15))
         (rev (seq 0 32))).

(** [f"session_{uuid.uuid4().hex[:16]}"] *)
Definition generate_session_id (rand : Z) : string :=
  "session_" ++ substring 0 16 (hex (uuid4 rand)).

(** *** Notions used by the statements *)

(** A run of appends to one session, oldest first; each carries the clock
    reading of its call.  A caller that sees an append raise goes on using
    the same service object, so the run continues from the world the
    failed call left. *)
Fixpoint add_messages (settings : Settings) (session_id : string)
    (appends : list (datetime * MessageRole * string)) (w : World) : World :=
  match appends with
  | [] => w
  | (now, role, content) :: rest =>
      add_messages settings session_id rest
        (fst (add_message_to_session settings now session_id role content w))
  end.

(** The message an append records. *)
Definition message_of (a : datetime * MessageRole * string) : Message :=
  let '(now, role, content) := a in
  {| role := role; content := content; timestamp := now; metadata := None |}.

(** What the durable backend holds for a session, when it answers. *)
Definition durable_session (settings : Settings) (session_id : string) (w : World)
  : result (option file) :=
  if String.eqb (storage_type w) "file" then
    Ok (fs w !! session_path settings session_id)
  else if String.eqb (storage_type w) "redis" then
    if redis_up w then Ok (redis_db w !! session_key session_id)
    else Raise ConnectionError
  else Ok None.

(** A session id is unknown when neither the cache nor the durable
    backend has it. *)
Definition unknown_session (settings : Settings) (session_id : string) (w : World)
  : Prop :=
  _sessions w !! session_id = None
  /\ durable_session settings session_id w = Ok None.

(** The value a dict of updates leaves in the field [key]: the last one
    given for it, or the old one. *)
Definition latest (key : string) (updates : list (string * value)) (old : value)
  : value :=
  fold_left (fun acc kv => if String.eqb (fst kv) key then snd kv else acc)
            updates old.

(** A public name, in the sense of pydantic: one that does not start
    with an underscore. *)
Definition public_name (key : string) : bool :=
  match key with
  | String c _ => negb (Ascii.eqb c "_")
  | EmptyString => true
  end.

(** A message as the stored form keeps it: the session files and keys
    hold no metadata. *)
Definition without_metadata (msg : Message) : Message :=
  {| role := role msg; content := content msg; timestamp := timestamp msg;
     metadata := None |}.

(** The preference layer of the weave, as a read of the store: nothing
    for a missing or empty user id, else the stored preferences. *)
Definition preference_layer (settings : Settings)
    (UserPreferences_new : value -> option UserPreferences)
    (user_id : option string) : M (option UserPreferences) :=
  match user_id with
  | None => mret None
  | Some user_id =>
      if Validation.is_empty user_id then mret None
      else get_user_preferences settings UserPreferences_new user_id
  end.

(** The durable backend of the service answers: always for files, and for
    Redis when the server is reachable. *)
Definition backend_answers (w : World) : Prop :=
  storage_type w = "file" \/ (storage_type w = "redis" /\ redis_up w = true).

End MemoryService.

(** ** Preference endpoint ([app/api/memory.py]) *)

Module MemoryAPI.
Import Schemas MemoryService.

Inductive http (A : Type) :=
| Response (a : A)
| HTTPException (status_code : Z) (detail : string).
Arguments Response {A} a.
Arguments HTTPException {A} status_code detail.

(** [PUT /preferences]: the body has already been parsed into a
    [UserPreferences], whose [user_id: str] carries no constraint. *)
Definition update_user_preferences (settings : Settings) (now : datetime)
    (preferences : UserPreferences) (w : World) : World * http UserPreferences :=
  match save_user_preferences settings now preferences w with
  | (w', Ok preferences) => (w', Response preferences)
  | (w', Raise _) => (w', HTTPException 500 "Error updating user preferences")
  end.

End MemoryAPI.

(** ** The other memory endpoints ([app/api/memory.py]) *)

Module MemoryRoutes.
Import Schemas MemoryService MemoryAPI.

(** The authorization fields of [Settings]; both default to the empty
    string. *)
Record ApiKeys := {
  ADMIN_API_KEY : string;
  ADVISORY_API_KEY : string
}.

Definition default_api_keys : ApiKeys :=
  {| ADMIN_API_KEY := ""; ADVISORY_API_KEY := "" |}.

(** [_verify_admin_access(api_key)], [api_key] being the optional
    [X-API-Key] header. *)
Definition _verify_admin_access (keys : ApiKeys) (api_key : option string) : bool :=
  match api_key with
  | None => false
  | Some key => String.eqb key (ADMIN_API_KEY keys) && negb (String.eqb key "")
  end.

(** [GET /preferences/{user_id}]: the stored preferences, or the default
    ones for a user who has none; [now] stamps the defaults. *)
Definition get_user_preferences (settings : Settings)
    (UserPreferences_new : value -> option UserPreferences)
    (now : datetime) (user_id : string) (w : World) : World * http UserPreferences :=
  match MemoryService.get_user_preferences settings UserPreferences_new user_id w with
  | (w', Ok (Some preferences)) => (w', Response preferences)
  | (w', Ok None) =>
      (w', Response {| Schemas.user_id := user_id;
                       tone_preference := Some "balanced";
                       max_response_length := Some 500%Z;
                       enable_clarification_questions := true;
                       custom_settings := None;
                       updated_at := now |})
  | (w', Raise _) => (w', HTTPException 500 "Error retrieving user preferences")
  end.

(** [GET /canon] *)
Definition get_canon_memory (settings : Settings)
    (CanonMemory_new : value -> option CanonMemory) (w : World)
  : World * http CanonMemory :=
  match MemoryService.get_canon_memory settings CanonMemory_new w with
  | (w', Ok (Some canon)) => (w', Response canon)
  | (w', Ok None) => (w', HTTPException 404 "Canon memory not initialized")
  | (w', Raise _) => (w', HTTPException 500 "Error retrieving canon memory")
  end.

(** The body of a successful [PUT /canon]. *)
Record CanonUpdated := {
  updated_status : string;
  updated_message : string;
  updated_timestamp : datetime;
  updated_fields : list string
}.

(** [PUT /canon]; [now] is the clock of the service call, [now'] the one
    of the answer. *)
Definition update_canon_memory (keys : ApiKeys) (settings : Settings)
    (CanonMemory_new : value -> option CanonMemory)
    (BaseModel_attr : string -> bool) (now now' : datetime)
    (updates : list (string * value)) (x_api_key : option string) (w : World)
  : World * http CanonUpdated :=
  if negb (_verify_admin_access keys x_api_key) then
    (w, HTTPException 403 "Admin authorization required to modify canon memory")
  else
    match MemoryService.update_canon_memory settings CanonMemory_new BaseModel_attr
            now updates ADMIN_READY w with
    | (w', Ok true) =>
        (w', Response {| updated_status := "success";
                         updated_message := "Canon memory updated successfully";
                         updated_timestamp := now';
                         updated_fields := map fst updates |})
    | (w', Ok false) => (w', HTTPException 500 "Failed to update canon memory")
    | (w', Raise _) => (w', HTTPException 500 "Error updating canon memory")
    end.

End MemoryRoutes.

(** ** Generation engine ([app/services/ai_engine/engine.py]) *)

Module Engine.
Import Schemas MemoryService.

(** One entry of the prompt: [{"role": ..., "content": ...}]. *)
Record ChatMessage := {
  chat_role : string;
  chat_content : string
}.

Definition AuthorizationTier_value (tier : AuthorizationTier) : string :=
  match tier with
  | BASIC => "basic"
  | ADVISORY => "advisory"
  | ADMIN_READY => "admin_ready"
  end.

(** [str(n)] for an [int]. *)
Definition str_int (n : Z) : string := NilZero.string_of_int (Z.to_int n).

(** An [Optional] field inside an f-string. *)
Definition str_optional {A} (str : A -> string) (o : option A) : string :=
  match o with Some a => str a | None => "None" end.

(** [l[-n:]] *)
Definition last_n {A} (n : nat) (l : list A) : list A :=
  skipn (length l - n) l.

Definition error_text : string :=
  "I encountered an error processing your request. This is a system issue, not related to your message content.".

(** [_generate_mock] *)
Definition _generate_mock (user_message : string) : string :=
  "[MOCK RESPONSE - SLM-A1] I received your message: '"
  ++ substring 0 50 user_message
  ++ "...'. This is a simulated response because no AI provider is configured. Configure AI_PROVIDER and AI_API_KEY in your .env file to enable real AI responses.".

Section Engine.

(** The prompt text of [anthroi_prompts.py]. *)
Variable ANTHROI_1_SYSTEM_PROMPT : string.

(** Python's [str] on a value of type [Any]. *)
Variable py_str : value -> string.

(** [self.provider], and the two remote calls: the text of the answer, or
    [None] when the call, or reading the text out of its answer, raises. *)
Variable provider : string.
Variable openai_create : list ChatMessage -> option string.
Variable anthropic_create : string -> list ChatMessage -> option string.

(** The system entry built at the top of [_build_message_history];
    [None] when [model_info] has no [get], which raises. *)
Definition system_content (memory_context : MemoryContext) : option string :=
  let nl := Validation.nl in
  let content := ANTHROI_1_SYSTEM_PROMPT in
  let content :=
    match user_preferences memory_context with
    | Some prefs =>
        content ++ nl ++ nl ++ "USER PREFERENCES:" ++ nl
        ++ "- Tone: " ++ str_optional id (tone_preference prefs) ++ nl
        ++ "- Max response length: ~"
        ++ str_optional str_int (max_response_length prefs) ++ " words" ++ nl
        ++ "- Clarification questions: "
        ++ (if enable_clarification_questions prefs then "enabled" else "disabled")
        ++ nl
    | None => content
    end in
  let content :=
    content ++ nl ++ nl ++ "USER AUTHORIZATION TIER: "
    ++ AuthorizationTier_value (authorization_tier memory_context) ++ nl in
  match canon_memory memory_context with
  | Some canon =>
      match model_info canon with
      | VDict d =>
          Some (content ++ nl ++ nl ++ "SYSTEM CANON MEMORY (Read-Only):" ++ nl
                ++ "Current Model: "
                ++ py_str (default (VStr "SLM-A1") (assoc "model_name" d)) ++ nl)
      | _ => None
      end
  | None => Some content
  end.

Definition chat_of (msg : Message) : ChatMessage :=
  {| chat_role := MessageRole_value (role msg); chat_content := content msg |}.

Definition _build_message_history (user_message : string)
    (memory_context : MemoryContext) : option (list ChatMessage) :=
  match system_content memory_context with
  | None => None
  | Some content =>
      Some ({| chat_role := "system"; chat_content := content |}
            :: map chat_of (last_n 10 (session_memory memory_context))
            ++ [{| chat_role := "user"; chat_content := user_message |}])%list
  end.

(** [_generate_anthropic]: the system entry travels apart from the
    conversation. *)
Definition _generate_anthropic (messages : list ChatMessage) : option string :=
  let system_message :=
    match filter (fun m => chat_role m = "system") messages with
    | m :: _ => chat_content m
    | [] => ""
    end in
  let conversation_messages := filter (fun m => chat_role m <> "system") messages in
  anthropic_create system_message conversation_messages.

(** [generate_response]: whatever is raised on the way is answered with
    the error text. *)
Definition generate_response (user_message : string) (memory_context : MemoryContext)
  : string :=
  match _build_message_history user_message memory_context with
  | None => error_text
  | Some messages =>
      let response :=
        if String.eqb provider "openai" then openai_create messages
        else if String.eqb provider "anthropic" then _generate_anthropic messages
        else Some (_generate_mock user_message) in
      default error_text response
  end.

End Engine.

End Engine.

(** ** Chat endpoints ([app/api/chat.py]) *)

Module ChatAPI.
Import Schemas MemoryService MemoryAPI MemoryRoutes.

Record ChatRequest := {
  request_message : string;
  request_session_id : option string;
  request_user_id : option string;
  request_authorization_tier : AuthorizationTier
}.

Record ChatResponse := {
  response : string;
  response_session_id : string;
  model : string;
  response_timestamp : datetime;
  metadata_authorization_tier : string;
  metadata_user_id : option string
}.

Record ConversationHistory := {
  history_session_id : string;
  messages : list Message;
  created_at : datetime;
  updated_at : datetime
}.

(** [_get_authorization_tier(api_key)] *)
Definition _get_authorization_tier (keys : ApiKeys) (api_key : option string)
  : AuthorizationTier :=
  match api_key with
  | None => BASIC
  | Some key =>
      if Validation.is_empty key then BASIC
      else if String.eqb key (ADMIN_API_KEY keys) then ADMIN_READY
      else if String.eqb key (ADVISORY_API_KEY keys) then ADVISORY
      else BASIC
  end.

Definition fallback_response : string :=
  "I encountered an issue generating an appropriate response. Could you rephrase your question?".

(** The clock readings and the random bytes one [send_message] consumes. *)
Record Readings := {
  now_user : datetime;        (* stamp of the user message *)
  now_assistant : datetime;   (* stamp of the assistant message *)
  now_response : datetime;    (* stamp of the answer *)
  rand : Z                    (* the bytes behind [uuid4] *)
}.

Section Chat.

Variable keys : ApiKeys.
Variable settings : Settings.
Variable UserPreferences_new : value -> option UserPreferences.
Variable CanonMemory_new : value -> option CanonMemory.

(** The engine ([AIEngineService.generate_response], which never raises)
    and the tone service ([harmonize_response], [validate_response], pure
    rewriting and matching of text). *)
Variable generate_response : string -> MemoryContext -> string.
Variable harmonize_response : string -> option UserPreferences -> string.
Variable validate_response : string -> bool.

(** The tier a request runs under. *)
Definition request_tier (request : ChatRequest) (x_api_key : option string)
  : AuthorizationTier :=
  let auth_tier := _get_authorization_tier keys x_api_key in
  if negb (AuthorizationTier_eqb (request_authorization_tier request) BASIC)
  then request_authorization_tier request
  else auth_tier.

(** [request.session_id or memory_service.generate_session_id()] *)
Definition request_session (readings : Readings) (request : ChatRequest) : string :=
  match request_session_id request with
  | Some session_id =>
      if Validation.is_empty session_id then generate_session_id (rand readings)
      else session_id
  | None => generate_session_id (rand readings)
  end.

(** The body of [send_message] inside its [try], one request at a time:
    what other requests do while this one awaits the engine is not part
    of it. *)
Definition send_message_body (readings : Readings) (request : ChatRequest)
    (x_api_key : option string) : M ChatResponse :=
  let auth_tier := request_tier request x_api_key in
  let session_id := request_session readings request in
  add_message_to_session settings (now_user readings) session_id USER
    (request_message request);;
  memory_context ← build_memory_context settings UserPreferences_new CanonMemory_new
                     session_id (request_user_id request) auth_tier;
  let raw_response := generate_response (request_message request) memory_context in
  let harmonized_response :=
    harmonize_response raw_response (user_preferences memory_context) in
  let harmonized_response :=
    if negb (validate_response harmonized_response) then fallback_response
    else harmonized_response in
  add_message_to_session settings (now_assistant readings) session_id ASSISTANT
    harmonized_response;;
  mret {| response := harmonized_response;
          response_session_id := session_id;
          model := "SLM-A1 (Anthroi-1)";
          response_timestamp := now_response readings;
          metadata_authorization_tier :=
            Engine.AuthorizationTier_value auth_tier;
          metadata_user_id := request_user_id request |}.

(** [POST /message] *)
Definition send_message (readings : Readings) (request : ChatRequest)
    (x_api_key : option string) (w : World) : World * http ChatResponse :=
  match send_message_body readings request x_api_key w with
  | (w', Ok chat_response) => (w', Response chat_response)
  | (w', Raise _) =>
      (w', HTTPException 500
             "An error occurred processing your message. Please try again.")
  end.

(** [GET /history/{session_id}] *)
Definition get_conversation_history (session_id : string) (w : World)
  : World * http ConversationHistory :=
  match get_session_history settings session_id w with
  | (w', Ok []) =>
      (w', HTTPException 404
             ("No conversation history found for session " ++ session_id))
  | (w', Ok (first :: rest)) =>
      (w', Response {| history_session_id := session_id;
                       messages := first :: rest;
                       created_at := Schemas.timestamp first;
                       updated_at := Schemas.timestamp (List.last rest first) |})
  | (w', Raise _) => (w', HTTPException 500 "Error retrieving conversation history")
  end.

(** [DELETE /session/{session_id}]; the answer carries a status, a message
    naming the session and [now]. *)
Definition clear_session (now : datetime) (session_id : string) (w : World)
  : World * http (string * string * datetime) :=
  match MemoryService.clear_session settings session_id w with
  | (w', Ok _) => (w', Response ("success", "Session " ++ session_id ++ " cleared", now))
  | (w', Raise _) => (w', HTTPException 500 "Error clearing session")
  end.

End Chat.

End ChatAPI.

(** ** File writes that can fail

    The writers of [memory_service.py] open their file outside any
    [try], except for the canon, and [open(path, 'w')] empties the file
    before [json.dump] starts.  Here the outcome of a write is an input
    of the call, like a clock reading. *)

Module MemoryServiceIO.
Import Schemas MemoryService.

(** What [os.makedirs(...)] followed by
    [with open(path, 'w') as f: json.dump(data, f, ...)] can meet. *)
Inductive write_outcome :=
| Written                (* the file holds the dump *)
| Refused                (* [makedirs] or [open] raises [OSError] (a name too
                            long, no permission, ...): nothing is changed *)
| Truncated (e : exn).   (* the file was opened, and so emptied, and the
                            dump then raises [e]: what is left of the
                            file is no JSON text *)

Definition write_json (outcome : write_outcome) (path : string) (data : value)
  : M unit := fun w =>
  match outcome with
  | Written => (with_fs w (<[path := Json data]> (fs w)), Ok tt)
  | Refused => (w, Raise OSError)
  | Truncated e => (with_fs w (<[path := Garbage]> (fs w)), Raise e)
  end.

Section Service.

Variable settings : Settings.
Variable CanonMemory_new : value -> option CanonMemory.
Variable BaseModel_attr : string -> bool.

Definition _save_session_file (outcome : write_outcome) (session_id : string)
  : M unit :=
  w ← get_world;
  write_json outcome (session_path settings session_id) (messages_data session_id w).

(** [add_message_to_session]: the cache is extended first, then the
    backend is written; [outcome] is what the file write meets, when
    there is one. *)
Definition add_message_to_session (outcome : write_outcome) (now : datetime)
    (session_id : string) (role : MessageRole) (content : string) : M unit := fun w =>
  let message := {| role := role; content := content; timestamp := now;
                    metadata := None |} in
  let log := default [] (_sessions w !! session_id) in
  let w := with_sessions w (<[session_id := (log ++ [message])%list]> (_sessions w)) in
  if String.eqb (storage_type w) "file" then _save_session_file outcome session_id w
  else if String.eqb (storage_type w) "redis" then _save_session_redis session_id w
  else (w, Ok tt).

Definition _save_preferences_file (outcome : write_outcome)
    (preferences : UserPreferences) : M unit :=
  write_json outcome (preferences_path settings (user_id preferences))
             (UserPreferences_model_dump preferences).

Definition save_user_preferences (outcome : write_outcome) (now : datetime)
    (preferences : UserPreferences) : M UserPreferences := fun w =>
  let preferences := stamp now preferences in
  let '(w, r) :=
    if String.eqb (storage_type w) "file" then
      _save_preferences_file outcome preferences w
    else if String.eqb (storage_type w) "redis" then
      _save_preferences_redis preferences w
    else (w, Ok tt) in
  (w, match r with Ok _ => Ok preferences | Raise e => Raise e end).

(** [update_canon_memory]: the write sits inside the [try], so a write
    that fails is answered with [False]. *)
Definition update_canon_memory (outcome : write_outcome) (now : datetime)
    (updates : list (string * value)) (authorization_tier : AuthorizationTier)
  : M bool :=
  if negb (AuthorizationTier_eqb authorization_tier ADMIN_READY) then mret false
  else
    try_except
      (canon ← get_canon_memory settings CanonMemory_new;
       match canon with
       | None => mret false
       | Some canon =>
           canon ← lift (apply_updates BaseModel_attr updates canon);
           canon ← lift (setattr canon "last_updated" (VDatetime now));
           write_json outcome (CANON_MEMORY_PATH settings)
                      (CanonMemory_model_dump canon);;
           mret true
       end)
      (mret false).

End Service.


End MemoryServiceIO.

(** ** The endpoints over writes that can fail
    ([app/api/memory.py], [app/api/chat.py]) *)

Module RoutesIO.
Import Schemas MemoryService MemoryAPI MemoryRoutes ChatAPI.
Import MemoryServiceIO.

(** [PUT /canon] *)
Definition update_canon_memory (keys : ApiKeys) (settings : Settings)
    (CanonMemory_new : value -> option CanonMemory)
    (BaseModel_attr : string -> bool) (outcome : write_outcome)
    (now now' : datetime)
    (updates : list (string * value)) (x_api_key : option string) (w : World)
  : World * http CanonUpdated :=
  if negb (_verify_admin_access keys x_api_key) then
    (w, HTTPException 403 "Admin authorization required to modify canon memory")
  else
    match MemoryServiceIO.update_canon_memory settings CanonMemory_new BaseModel_attr
            outcome now updates ADMIN_READY w with
    | (w', Ok true) =>
        (w', Response {| updated_status := "success";
                         updated_message := "Canon memory updated successfully";
                         updated_timestamp := now';
                         updated_fields := map fst updates |})
    | (w', Ok false) => (w', HTTPException 500 "Failed to update canon memory")
    | (w', Raise _) => (w', HTTPException 500 "Error updating canon memory")
    end.

Section Chat.

Variable keys : ApiKeys.
Variable settings : Settings.
Variable UserPreferences_new : value -> option UserPreferences.
Variable CanonMemory_new : value -> option CanonMemory.
Variable generate_response : string -> MemoryContext -> string.
Variable harmonize_response : string -> option UserPreferences -> string.
Variable validate_response : string -> bool.

(** The body of [send_message] inside its [try]; [write_user] and
    [write_assistant] are what the two writes of the session file meet. *)
Definition send_message_body (write_user write_assistant : write_outcome)
    (readings : Readings) (request : ChatRequest)
    (x_api_key : option string) : M ChatResponse :=
  let auth_tier := request_tier keys request x_api_key in
  let session_id := request_session readings request in
  MemoryServiceIO.add_message_to_session settings write_user (now_user readings)
    session_id USER (request_message request);;
  memory_context ← build_memory_context settings UserPreferences_new CanonMemory_new
                     session_id (request_user_id request) auth_tier;
  let raw_response := generate_response (request_message request) memory_context in
  let harmonized_response :=
    harmonize_response raw_response (user_preferences memory_context) in
  let harmonized_response :=
    if negb (validate_response harmonized_response) then fallback_response
    else harmonized_response in
  MemoryServiceIO.add_message_to_session settings write_assistant
    (now_assistant readings) session_id ASSISTANT harmonized_response;;
  mret {| response := harmonized_response;
          response_session_id := session_id;
          model := "SLM-A1 (Anthroi-1)";
          response_timestamp := now_response readings;
          metadata_authorization_tier :=
            Engine.AuthorizationTier_value auth_tier;
          metadata_user_id := request_user_id request |}.

(** [POST /message] *)
Definition send_message (write_user write_assistant : write_outcome)
    (readings : Readings) (request : ChatRequest)
    (x_api_key : option string) (w : World) : World * http ChatResponse :=
  match send_message_body write_user write_assistant readings request x_api_key w with
  | (w', Ok chat_response) => (w', Response chat_response)
  | (w', Raise _) =>
      (w', HTTPException 500
             "An error occurred processing your message. Please try again.")
  end.

End Chat.

End RoutesIO.

(** ** Sample data

    Concrete stores and inputs on which the statements below are
    exercised. *)

Module Examples.
Import RateLimiter Schemas MemoryService.

(** The identity and the bucket used by the examples: one token left,
    last refilled at time 5, capacity 60, one token per second. *)
Definition example_ip : string := "10.0.0.1".


(** The same bucket in doubles, and two calls that it will deny once it
    is empty. *)
Definition example_limiter_double : RateLimiterDouble.RateLimiterMiddleware :=
  {| RateLimiterDouble._buckets := {[ example_ip := (1%float, 5%float) ]};
     RateLimiterDouble.max_tokens := 60;
     RateLimiterDouble.refill_rate := 1%float |}.

Definition example_denied_calls_double : list (float * float) :=
  [ (5.25%float, 5.25%float); (5.5%float, 5.5%float) ].

(** One request per 49 seconds. *)
Definition one_per_49_seconds : Settings := {|
  MEMORY_STORAGE_TYPE := "file";
  CANON_MEMORY_PATH := "./data/canon_memory.json";
  USER_PREFERENCES_PATH := "./data/user_preferences";
  SESSION_MEMORY_PATH := "./data/sessions";
  RATE_LIMIT_REQUESTS := 1;
  RATE_LIMIT_PERIOD := 49
|}.

(** Two identities with a bucket each. *)
Definition example_two_buckets : RateLimiterMiddleware :=
  {| _buckets := {[ "10.0.0.1" := (2%Q, 0%Q); "10.0.0.2" := (7%Q, 3%Q) ]};
     max_tokens := 60;
     refill_rate := 1%Q |}.

(** A service on the file backend with nothing stored. *)
Definition file_world : World :=
  {| storage_type := "file"; _sessions := ∅; fs := ∅;
     redis_up := false; redis_db := ∅ |}.

(** A service on the Redis backend whose server does not answer. *)
Definition redis_down_world : World :=
  {| storage_type := "redis"; _sessions := ∅; fs := ∅;
     redis_up := false; redis_db := ∅ |}.

(** The canon file as [init_canon_memory] writes it, abridged. *)
Definition canon_data : value :=
  VDict [ ("system_knowledge",
           VDict [ ("developer", VStr "VelaPlex Systems");
                   ("application", VStr "Souent") ]);
          ("model_info", VDict [ ("current_model", VStr "SLM-A1") ]);
          ("locked", VBool true);
          ("version", VStr "1.0.0") ].

Definition canon_world : World :=
  {| storage_type := "file"; _sessions := ∅;
     fs := {[ CANON_MEMORY_PATH default_settings := Json canon_data ]};
     redis_up := false; redis_db := ∅ |}.

(** A constructor for [CanonMemory] that takes each field from the data,
    or its declared default, and insists on the declared types without
    coercion. *)
Definition strict_CanonMemory_new (data : value) : option CanonMemory :=
  match data with
  | VDict d =>
      let sk := default (VDict []) (assoc "system_knowledge" d) in
      let mi := default (VDict []) (assoc "model_info" d) in
      let lk := default (VBool true) (assoc "locked" d) in
      let vs := default (VStr "1.0.0") (assoc "version" d) in
      let lu := default VNone (assoc "last_updated" d) in
      match sk, mi, lk, vs, lu with
      | VDict _, VDict _, VBool _, VStr _, (VNone | VDatetime _) =>
          Some {| system_knowledge := sk; model_info := mi; locked := lk;
                  version := vs; last_updated := lu |}
      | _, _, _, _, _ => None
      end
  | _ => None
  end.

(** A constructor for [UserPreferences] in the same style. *)
Definition strict_UserPreferences_new (data : value) : option UserPreferences :=
  match data with
  | VDict d =>
      match assoc "user_id" d, assoc "updated_at" d with
      | Some (VStr u), Some (VDatetime t) =>
          Some {| user_id := u;
                  tone_preference :=
                    match assoc "tone_preference" d with
                    | Some (VStr s) => Some s
                    | _ => None
                    end;
                  max_response_length :=
                    match assoc "max_response_length" d with
                    | Some (VInt n) => Some n
                    | _ => None
                    end;
                  enable_clarification_questions :=
                    match assoc "enable_clarification_questions" d with
                    | Some (VBool b) => b
                    | _ => true
                    end;
                  custom_settings := assoc "custom_settings" d;
                  updated_at := t |}
      | _, _ => None
      end
  | _ => None
  end.

(** Some of the names every pydantic model carries. *)
Definition pydantic_attr (key : string) : bool :=
  existsb (String.eqb key)
    ["model_dump"; "model_dump_json"; "model_copy"; "model_fields";
     "model_config"; "copy"; "dict"; "json"].

(** The canon record read from [canon_world]. *)
Definition canon_record : CanonMemory :=
  {| system_knowledge :=
       VDict [ ("developer", VStr "VelaPlex Systems");
               ("application", VStr "Souent") ];
     model_info := VDict [ ("current_model", VStr "SLM-A1") ];
     locked := VBool true;
     version := VStr "1.0.0";
     last_updated := VNone |}.

(** Two turns of a conversation. *)
Definition two_appends : list (datetime * MessageRole * string) :=
  [ (1000%Z, USER, "What is the purpose of Souent?");
    (2000%Z, ASSISTANT, "Souent is a logic-first AI chatbot.") ].

(** Preferences of a named user. *)
Definition named_preferences : UserPreferences :=
  {| user_id := "user_456"; tone_preference := Some "concise";
     max_response_length := Some 200%Z;
     enable_clarification_questions := false;
     custom_settings := Some (VDict [("theme", VStr "dark")]);
     updated_at := 0%Z |}.

(** Preferences sent without a user id. *)
Definition anonymous_preferences : UserPreferences :=
  {| user_id := ""; tone_preference := Some "balanced";
     max_response_length := Some 500%Z;
     enable_clarification_questions := true;
     custom_settings := None; updated_at := 0%Z |}.

End Examples.

(** * Properties *)

(** ** Admission controller *)

Module RateLimiterProps.
Import RateLimiter Examples.

Lemma py_min_Qmin (a b : Q) : py_min a b = Qmin a b.
Proof.
  unfold py_min, Qmin, GenericMinMax.gmin, Qle_bool, Qcompare, Z.leb.
  now destruct (_ ?= _)%Z.
Qed.

(** One call, as a function of the bucket it works on. *)
Lemma check_rate_limit_step settings self client_ip now factory_time :
  let bucket := bucket_of settings factory_time client_ip self in
  let tokens := Qmin (inject_Z (max_tokens self))
                     (fst bucket + (now - snd bucket) * refill_rate self) in
  _check_rate_limit settings now factory_time client_ip self =
    if Qle_bool 1 tokens then
      (with_buckets self (<[client_ip := ((tokens - 1)%Q, now)]> (_buckets self)),
       (true, (tokens - 1)%Q))
    else
      (with_buckets self (<[client_ip := (tokens, snd bucket)]> (_buckets self)),
       (false, tokens)).
Proof.
  unfold _check_rate_limit, bucket_of, buckets_getitem.
  destruct (_buckets self !! client_ip) as [[tokens last_refill]|]; simpl;
    rewrite py_min_Qmin; destruct (Qle_bool 1 _); try reflexivity;
    now rewrite insert_insert_eq.
Qed.

(** Calls of one identity leave the bucket of every other identity alone. *)
Lemma check_rate_limit_frame settings self a b now factory_time :
  a <> b ->
  _buckets (fst (_check_rate_limit settings now factory_time a self)) !! b
  = _buckets self !! b.
Proof.
  intros Hne. rewrite check_rate_limit_step. simpl.
  destruct (Qle_bool 1 _); simpl; now rewrite lookup_insert_ne.
Qed.

(** The scenario of the specification: capacity 60 over 60 seconds; 60
    calls in a row succeed, the 61st fails, and after a wait of 61 seconds
    the next one succeeds. *)
Example burst_then_wait :
  match init default_settings with
  | None => False
  | Some self =>
      let run := allow_calls default_settings example_ip (repeat (0%Q, 0%Q) 60) self in
      let request := dispatch default_settings "/api/v1/chat/message" (Some example_ip) in
      map fst (snd run) = repeat true 60
      /\ snd (request 0%Q 0%Q (fst run)) = Rejected 429 60
      /\ snd (request 61%Q 61%Q (fst (request 0%Q 0%Q (fst run)))) = Forwarded 60 59
  end.
Proof. vm_compute. repeat split. Qed.

(** C6.  For distinct identities A and B, B having a bucket, any sequence
    of [allow(A)] calls, including one that exhausts A's bucket, leaves
    the tokens and the [last_refill] of B's bucket unchanged. *)
Theorem allow_leaves_other_identity settings a b (bucket_b : Q * Q) calls :
  forall self,
    a <> b ->
    _buckets self !! b = Some bucket_b ->
    _buckets (fst (allow_calls settings a calls self)) !! b = Some bucket_b.
Proof.
  induction calls as [|[now factory_time] rest IH]; intros self Hne Hb; simpl.
  - exact Hb.
  - pose proof (check_rate_limit_frame settings self a b now factory_time Hne) as Hframe.
    destruct (_check_rate_limit settings now factory_time a self) as [self1 out].
    simpl in Hframe. rewrite <- Hframe in Hb.
    specialize (IH self1 Hne Hb).
    now destruct (allow_calls settings a rest self1).
Qed.

Lemma allow_leaves_other_identity_witness :
  _buckets (fst (allow_calls default_settings "10.0.0.1"
                   (repeat (0%Q, 0%Q) 5) example_two_buckets)) !! "10.0.0.2"
  = Some (7%Q, 3%Q).
Proof.
  apply (allow_leaves_other_identity default_settings "10.0.0.1" "10.0.0.2").
  - discriminate.
  - vm_compute. reflexivity.
Defined.

End RateLimiterProps.

(** ** Admission controller, in doubles *)

Module RateLimiterDoubleProps.
Import RateLimiterDouble Examples.

(** One call, as a function of the bucket it works on. *)
Lemma double_check_rate_limit_step settings self client_ip now factory_time :
  let bucket := bucket_of settings factory_time client_ip self in
  let tokens := py_min (float_of_int (max_tokens self))
                       (fst bucket + (now - snd bucket) * refill_rate self)%float in
  _check_rate_limit settings now factory_time client_ip self =
    if (1 <=? tokens)%float then
      (with_buckets self (<[client_ip := ((tokens - 1)%float, now)]> (_buckets self)),
       (true, (tokens - 1)%float))
    else
      (with_buckets self (<[client_ip := (tokens, snd bucket)]> (_buckets self)),
       (false, tokens)).
Proof.
  unfold _check_rate_limit, bucket_of, buckets_getitem.
  destruct (_buckets self !! client_ip) as [[tokens last_refill]|]; simpl;
    destruct (1 <=? _)%float; try reflexivity;
    now rewrite insert_insert_eq.
Qed.




(** Calls of one identity leave the bucket of every other identity
    alone, in doubles as over the rationals. *)
Lemma double_check_rate_limit_frame settings self a b now factory_time :
  a <> b ->
  _buckets (fst (_check_rate_limit settings now factory_time a self)) !! b
  = _buckets self !! b.
Proof.
  intros Hne. rewrite double_check_rate_limit_step. simpl.
  destruct (1 <=? _)%float; simpl; now rewrite lookup_insert_ne.
Qed.



(** The run used above, in figures: the permitted call at time 5 empties
    the bucket; the denied calls at 5.25 and 5.5 store their refilled
    tokens, 0.25 and then 0.25 + 0.5, and keep the stamp 5. *)
Example denied_calls_example :
  let self1 := fst (_check_rate_limit default_settings 5 5 example_ip
                      example_limiter_double) in
  let run := allow_calls default_settings example_ip example_denied_calls_double
               self1 in
  _buckets self1 !! example_ip = Some (0%float, 5%float)
  /\ snd run = [(false, 0.25%float); (false, 0.75%float)]
  /\ _buckets (fst run) !! example_ip = Some (0.75%float, 5%float).
Proof. vm_compute. repeat split. Qed.

(** One request per 49 seconds: the first call empties the bucket; the
    call one period later finds [49.0 * (1 / 49)], which rounds to the
    double just below 1, and is denied. *)
Example one_period_later_denied :
  match init one_per_49_seconds with
  | None => False
  | Some self =>
      let first := _check_rate_limit one_per_49_seconds 0 0 example_ip self in
      let second := _check_rate_limit one_per_49_seconds 49 49 example_ip (fst first) in
      snd first = (true, 0%float)
      /\ snd second = (false, 0x1.fffffffffffffp-1%float)
  end.
Proof. vm_compute. repeat split. Qed.

(** The scenario of the specification, in doubles: capacity 60 over 60
    seconds; 60 calls in a row succeed, the 61st fails, and after a wait
    of 61 seconds the next one succeeds. *)
Example burst_then_wait_double :
  match init default_settings with
  | None => False
  | Some self =>
      let run := allow_calls default_settings example_ip
                   (repeat (0%float, 0%float) 60) self in
      let denied := _check_rate_limit default_settings 0 0 example_ip (fst run) in
      let later := _check_rate_limit default_settings 61 61 example_ip (fst denied) in
      map fst (snd run) = repeat true 60
      /\ snd denied = (false, 0%float)
      /\ snd later = (true, 59%float)
  end.
Proof. vm_compute. repeat split. Qed.

(** X12.  A denied call stores the tokens it refilled and keeps the old
    stamp, so the time up to it is credited again by the next call: after
    a call at [t1] that is denied with [refilled] tokens, the bucket holds
    [(refilled, t0)], and the next call, at [t2], decides on
    [min(C, refilled + (t2 - t0) * R)], in which [refilled] already holds
    the refill for [t1 - t0]. *)
Theorem denied_call_is_credited_again
    settings self client_ip tokens t0 t1 t2 factory_time1 factory_time2 :
  exact_int (RATE_LIMIT_REQUESTS settings) ->
  exact_int (max_tokens self) ->
  _buckets self !! client_ip = Some (tokens, t0) ->
  let capacity := float_of_int (max_tokens self) in
  let refilled := py_min capacity (tokens + (t1 - t0) * refill_rate self)%float in
  (1 <=? refilled)%float = false ->
  let first := _check_rate_limit settings t1 factory_time1 client_ip self in
  let second := _check_rate_limit settings t2 factory_time2 client_ip (fst first) in
  snd first = (false, refilled)
  /\ _buckets (fst first) !! client_ip = Some (refilled, t0)
  /\ fst (snd second)
     = (1 <=? py_min capacity (refilled + (t2 - t0) * refill_rate self))%float.
Proof.
  intros _ _ Hb capacity refilled Hden first second.
  assert (first = (with_buckets self
                     (<[client_ip := (refilled, t0)]> (_buckets self)),
                   (false, refilled))) as Hfirst.
  { subst first. rewrite double_check_rate_limit_step. unfold bucket_of.
    rewrite Hb. simpl. fold capacity refilled. now rewrite Hden. }
  subst second. rewrite Hfirst. simpl.
  split; [reflexivity|]. split; [apply lookup_insert_eq|].
  rewrite double_check_rate_limit_step. unfold bucket_of. simpl.
  rewrite lookup_insert_eq. simpl. fold capacity.
  set (decision := (1 <=? py_min capacity _)%float).
  now destruct decision.
Qed.

(** On the emptied bucket of the example, stamped 5: the call at 5.5 is
    denied with half a token, and the call at 5.625, an eighth of a
    second later, is permitted. *)
Lemma denied_call_is_credited_again_witness :
  let self := fst (_check_rate_limit default_settings 5 5 example_ip
                     example_limiter_double) in
  let first := _check_rate_limit default_settings 5.5 0 example_ip self in
  let second := _check_rate_limit default_settings 5.625 0 example_ip (fst first) in
  snd first = (false, 0.5%float) /\ fst (snd second) = true.
Proof.
  intros self first second.
  destruct (denied_call_is_credited_again default_settings self example_ip
              0%float 5%float 5.5%float 5.625%float 0%float 0%float)
    as (Hfirst & _ & Hsecond).
  - now vm_compute.
  - now vm_compute.
  - vm_compute. reflexivity.
  - vm_compute. reflexivity.
  - split; [exact Hfirst | exact Hsecond].
Defined.

End RateLimiterDoubleProps.

(** ** Session identifiers *)

Module SessionIdProps.
Import Validation MemoryService.

Lemma hex_digit_lower_hex (x : Z) : is_lower_hex (hex_digit (Z.land x 15)) = true.
Proof.
  change 15%Z with (Z.ones 4). rewrite Z.land_ones by lia.
  assert (0 <= x mod 2 ^ 4 < 16)%Z as Hd by (apply Z.mod_pos_bound; lia).
  set (d := (x mod 2 ^ 4)%Z) in *.
  assert (d = 0 \/ d = 1 \/ d = 2 \/ d = 3 \/ d = 4 \/ d = 5 \/ d = 6 \/ d = 7
          \/ d = 8 \/ d = 9 \/ d = 10 \/ d = 11 \/ d = 12 \/ d = 13 \/ d = 14
          \/ d = 15)%Z as Hcase by lia.
  repeat (destruct Hcase as [-> | Hcase]; [reflexivity|]).
  now rewrite Hcase.
Qed.

Lemma lower_hex_session_id_char (c : ascii) :
  is_lower_hex c = true -> session_id_char c = true.
Proof.
  unfold is_lower_hex, session_id_char, is_lower, in_range.
  intros H. apply orb_true_iff in H as [H | H].
  - now rewrite H, !orb_true_r.
  - apply andb_true_iff in H as [Hlo Hhi].
    assert ((N_of_ascii c <=? N_of_ascii "z")%N = true) as Hz.
    { apply N.leb_le. apply N.leb_le in Hhi.
      etransitivity; [exact Hhi|]. now vm_compute. }
    now rewrite Hlo, Hz.
Qed.

Lemma substring_string_of_list (n : nat) (l : list ascii) :
  substring 0 n (string_of_list_ascii l) = string_of_list_ascii (firstn n l).
Proof.
  revert l. induction n as [|n IH]; intros [|c l]; simpl; try reflexivity.
  now rewrite IH.
Qed.

Lemma In_firstn_In {A} (n : nat) (l : list A) (x : A) :
  In x (firstn n l) -> In x l.
Proof.
  intros H. rewrite <- (firstn_skipn n l). apply in_or_app. now left.
Qed.

Lemma length_string_of_list (l : list ascii) :
  String.length (string_of_list_ascii l) = length l.
Proof. induction l; simpl; congruence. Qed.

Lemma class_star_dollar_all (cls : ascii -> bool) (s : string) :
  forallb cls (list_ascii_of_string s) = true -> class_star_dollar cls s = true.
Proof.
  induction s as [|c s IH]; simpl; [reflexivity|].
  intros H. apply andb_true_iff in H as [-> H]. now apply IH.
Qed.

(** The first sixteen digits of [hex]. *)
Lemma hex_prefix (int : Z) :
  let h := substring 0 16 (hex int) in
  String.length h = 16%nat /\ forallb is_lower_hex (list_ascii_of_string h) = true.
Proof.
  unfold hex. rewrite substring_string_of_list. split.
  - rewrite length_string_of_list, length_firstn, length_map, length_rev, length_seq.
    reflexivity.
  - rewrite list_ascii_of_string_of_list_ascii. apply forallb_forall.
    intros c Hc. apply In_firstn_In in Hc. apply in_map_iff in Hc as (i & <- & _).
    apply hex_digit_lower_hex.
Qed.

(** C10.  Every session id that [generate_session_id] returns is
    ["session_"] followed by exactly 16 lowercase hexadecimal characters,
    24 characters in all; it therefore matches the session-id pattern,
    respects the 64-character limit and passes [validate_session_id]. *)
Theorem generate_session_id_well_formed (rand : Z) :
  (0 <= rand < 2 ^ 128)%Z ->
  exists h,
    generate_session_id rand = "session_" ++ h
    /\ String.length h = 16%nat
    /\ forallb is_lower_hex (list_ascii_of_string h) = true
    /\ String.length (generate_session_id rand) = 24%nat
    /\ SESSION_ID_PATTERN (generate_session_id rand) = true
    /\ (String.length (generate_session_id rand) <= MAX_SESSION_ID_LENGTH)%nat
    /\ validate_session_id (generate_session_id rand) = (true, None).
Proof.
  intros _. unfold generate_session_id.
  destruct (hex_prefix (uuid4 rand)) as [Hlen Hhex].
  set (h := substring 0 16 (hex (uuid4 rand))) in *. clearbody h.
  assert (String.length ("session_" ++ h) = 24%nat) as Hlen24
    by (cbv [String.append]; simpl; now rewrite Hlen).
  assert (SESSION_ID_PATTERN ("session_" ++ h) = true) as Hpat.
  { unfold SESSION_ID_PATTERN. cbv [String.append]. simpl.
    apply class_star_dollar_all, forallb_forall. intros c Hc.
    apply lower_hex_session_id_char.
    now apply (proj1 (forallb_forall _ _) Hhex). }
  exists h. repeat split; try assumption.
  - rewrite Hlen24. unfold MAX_SESSION_ID_LENGTH. lia.
  - unfold validate_session_id. rewrite Hlen24, Hpat. reflexivity.
Qed.

Lemma generate_session_id_well_formed_witness :
  exists h,
    generate_session_id 0x0123456789abcdef0123456789abcdef = "session_" ++ h
    /\ String.length h = 16%nat.
Proof.
  destruct (generate_session_id_well_formed 0x0123456789abcdef0123456789abcdef)
    as (h & Heq & Hlen & _).
  - split; now vm_compute.
  - exists h. split; assumption.
Defined.

Example generate_session_id_example :
  generate_session_id 0x0123456789abcdef0123456789abcdef = "session_0123456789ab4def".
Proof. vm_compute. reflexivity. Qed.

End SessionIdProps.

(** ** Session store *)

Module SessionProps.
Import Schemas MemoryService Examples.

(** Case analysis on the backend the service was built with. *)
Ltac by_backend w :=
  destruct (String.eqb (storage_type w) "file") eqn:?;
  [| destruct (String.eqb (storage_type w) "redis") eqn:?;
     [ destruct (redis_up w) eqn:? |] ].

(** An append extends the cached log of its session, whether or not the
    durable write succeeds. *)
Lemma add_message_cache settings now session_id role content w :
  _sessions (fst (add_message_to_session settings now session_id role content w))
    !! session_id
  = Some (default [] (_sessions w !! session_id)
          ++ [message_of (now, role, content)])%list.
Proof.
  unfold add_message_to_session, _save_session_file, _save_session_redis,
    write_json, redis_set, get_world, mbind, M_bind.
  simpl. by_backend w; simpl; apply lookup_insert_eq.
Qed.

Lemma add_messages_cache settings session_id appends :
  forall w,
    appends <> [] ->
    _sessions (add_messages settings session_id appends w) !! session_id
    = Some (default [] (_sessions w !! session_id) ++ map message_of appends)%list.
Proof.
  induction appends as [|[[now role] content] rest IH]; intros w Hne; [done|].
  simpl. destruct rest as [|a rest'].
  - simpl. apply add_message_cache.
  - rewrite IH by discriminate. rewrite add_message_cache. simpl.
    now rewrite <- app_assoc.
Qed.

Lemma get_session_history_cached settings session_id w log :
  _sessions w !! session_id = Some log ->
  get_session_history settings session_id w = (w, Ok log).
Proof. unfold get_session_history. now intros ->. Qed.

Lemma get_session_history_unknown settings session_id w :
  unknown_session settings session_id w ->
  get_session_history settings session_id w = (w, Ok []).
Proof.
  unfold unknown_session, durable_session, get_session_history,
    _load_session_file, _load_session_redis, redis_get, mbind, M_bind.
  intros [-> Hdur]. by_backend w; simpl in *;
    try discriminate; try (injection Hdur as ->); reflexivity.
Qed.

(** C5.  For every session id and every sequence of N messages appended
    to a session whose log starts empty, a following [get] returns
    exactly those N messages in insertion order; for an unknown session
    id it returns the empty sequence. *)
Theorem append_then_get settings session_id appends w :
  (default [] (_sessions w !! session_id) = [] ->
   appends <> [] ->
   let w' := add_messages settings session_id appends w in
   get_session_history settings session_id w' = (w', Ok (map message_of appends)))
  /\ (unknown_session settings session_id w ->
      get_session_history settings session_id w = (w, Ok [])).
Proof.
  split.
  - intros Hempty Hne w'. apply get_session_history_cached.
    subst w'. rewrite add_messages_cache by assumption. now rewrite Hempty.
  - apply get_session_history_unknown.
Qed.

Lemma append_then_get_witness :
  let w' := add_messages default_settings "session_123" two_appends file_world in
  get_session_history default_settings "session_123" w'
    = (w', Ok (map message_of two_appends))
  /\ get_session_history default_settings "session_123" file_world
      = (file_world, Ok []).
Proof.
  destruct (append_then_get default_settings "session_123" two_appends file_world)
    as [Happ Hunknown].
  split.
  - apply Happ; [reflexivity | discriminate].
  - apply Hunknown. split; reflexivity.
Defined.

(** C7.  After a [clear(sessionId)] that returns, [get(sessionId)] gives
    the empty sequence, in the same process and in a fresh process that
    reloads from durable storage. *)
Theorem clear_then_get settings session_id w w' :
  clear_session settings session_id w = (w', Ok tt) ->
  get_session_history settings session_id w' = (w', Ok [])
  /\ get_session_history settings session_id (fresh_process w')
     = (fresh_process w', Ok []).
Proof.
  unfold clear_session, remove, redis_delete. simpl. intros Hclear.
  assert (unknown_session settings session_id w'
          /\ unknown_session settings session_id (fresh_process w')) as [H1 H2].
  { unfold unknown_session, durable_session, fresh_process.
    by_backend w; simpl in *.
    - destruct (fs w !! session_path settings session_id) eqn:Hfile;
        injection Hclear as <-; simpl;
        repeat match goal with H : String.eqb _ _ = _ |- _ => rewrite H end;
        rewrite ?lookup_delete_eq, ?Hfile; repeat split; apply lookup_empty.
    - injection Hclear as <-; simpl;
        repeat match goal with H : _ = _ |- _ => rewrite H end;
        rewrite ?lookup_delete_eq; repeat split; apply lookup_empty.
    - discriminate.
    - injection Hclear as <-; simpl;
        repeat match goal with H : String.eqb _ _ = _ |- _ => rewrite H end;
        rewrite ?lookup_delete_eq; repeat split; apply lookup_empty. }
  split; now apply get_session_history_unknown.
Qed.

Lemma clear_then_get_witness :
  let w := add_messages default_settings "session_123" two_appends file_world in
  let w' := fst (clear_session default_settings "session_123" w) in
  get_session_history default_settings "session_123" w' = (w', Ok [])
  /\ get_session_history default_settings "session_123" (fresh_process w')
     = (fresh_process w', Ok []).
Proof.
  intros w w'.
  apply (clear_then_get default_settings "session_123" w w').
  subst w'. vm_compute. reflexivity.
Defined.

(** Without the [clear], a fresh process reads the two turns back from
    the session file. *)
Example reload_after_restart :
  let w := add_messages default_settings "session_123" two_appends file_world in
  snd (get_session_history default_settings "session_123" (fresh_process w))
  = Ok (map message_of two_appends).
Proof. vm_compute. reflexivity. Qed.

End SessionProps.

(** ** Canon store *)

Module CanonProps.
Import Schemas MemoryService Examples.

(** Reading the canon never changes the world. *)
Lemma get_canon_memory_pure settings CanonMemory_new w :
  fst (get_canon_memory settings CanonMemory_new w) = w.
Proof.
  unfold get_canon_memory.
  now destruct (fs w !! CANON_MEMORY_PATH settings) as [[|data]|].
Qed.

Lemma get_canon_memory_eq settings CanonMemory_new w :
  get_canon_memory settings CanonMemory_new w
  = (w, snd (get_canon_memory settings CanonMemory_new w)).
Proof.
  unfold get_canon_memory.
  now destruct (fs w !! CANON_MEMORY_PATH settings) as [[|data]|].
Qed.

(** C3.  For every updates mapping and every tier other than ADMIN,
    [update_canon_memory] returns false and leaves the whole store, the
    canon record included, exactly as it was: nothing is written. *)
Theorem update_canon_memory_unauthorized
    settings CanonMemory_new BaseModel_attr now updates tier w :
  tier <> ADMIN_READY ->
  update_canon_memory settings CanonMemory_new BaseModel_attr now updates tier w
  = (w, Ok false).
Proof.
  intros Htier. unfold update_canon_memory.
  now destruct tier.
Qed.

Lemma update_canon_memory_unauthorized_witness :
  update_canon_memory default_settings strict_CanonMemory_new pydantic_attr
    5000%Z [("locked", VBool false)] ADVISORY canon_world
  = (canon_world, Ok false).
Proof.
  apply update_canon_memory_unauthorized. discriminate.
Defined.

(** C9.  When the canon was never initialized, so that reading it yields
    absence, [update_canon_memory] with ADMIN tier returns false for any
    updates mapping and creates no canon record: the store is unchanged. *)
Theorem update_canon_memory_uninitialized
    settings CanonMemory_new BaseModel_attr now updates w :
  snd (get_canon_memory settings CanonMemory_new w) = Ok None ->
  update_canon_memory settings CanonMemory_new BaseModel_attr now updates
    ADMIN_READY w
  = (w, Ok false).
Proof.
  intros Hget. unfold update_canon_memory, try_except, mbind, M_bind. simpl.
  rewrite get_canon_memory_eq, Hget. reflexivity.
Qed.

Lemma update_canon_memory_uninitialized_witness :
  update_canon_memory default_settings strict_CanonMemory_new pydantic_attr
    5000%Z [("version", VStr "2.0.0")] ADMIN_READY file_world
  = (file_world, Ok false).
Proof.
  apply update_canon_memory_uninitialized. reflexivity.
Defined.

(** The loop over the updates, when no key names an inherited attribute:
    every declared field ends with the last value given for it. *)
Lemma apply_updates_fields BaseModel_attr updates :
  forall canon,
    Forall (fun kv => BaseModel_attr (fst kv) = false) updates ->
    apply_updates BaseModel_attr updates canon
    = Ok {| system_knowledge := latest "system_knowledge" updates (system_knowledge canon);
            model_info := latest "model_info" updates (model_info canon);
            locked := latest "locked" updates (locked canon);
            version := latest "version" updates (version canon);
            last_updated := latest "last_updated" updates (last_updated canon) |}.
Proof.
  induction updates as [|[k v] rest IH]; intros canon Hall.
  - now destruct canon.
  - apply Forall_cons in Hall as [Hk Hall]. simpl in Hk.
    unfold latest. simpl. unfold hasattr, is_field, setattr. rewrite Hk. simpl.
    destruct (String.eqb_spec k "system_knowledge") as [->|_];
      [simpl; now rewrite (IH _ Hall)|].
    destruct (String.eqb_spec k "model_info") as [->|_];
      [simpl; now rewrite (IH _ Hall)|].
    destruct (String.eqb_spec k "locked") as [->|_];
      [simpl; now rewrite (IH _ Hall)|].
    destruct (String.eqb_spec k "version") as [->|_];
      [simpl; now rewrite (IH _ Hall)|].
    destruct (String.eqb_spec k "last_updated") as [->|_];
      [simpl; now rewrite (IH _ Hall)|].
    simpl. now rewrite (IH _ Hall).
Qed.

(** The authorized update of an initialized canon whose keys name no
    inherited attribute: each recognized field takes the value given for
    it, [last_updated] is the time of the call, every other key is
    ignored, the record is written and the call returns true. *)
Lemma update_canon_memory_applies
    settings CanonMemory_new BaseModel_attr now updates w canon :
  snd (get_canon_memory settings CanonMemory_new w) = Ok (Some canon) ->
  Forall (fun kv => BaseModel_attr (fst kv) = false) updates ->
  update_canon_memory settings CanonMemory_new BaseModel_attr now updates
    ADMIN_READY w
  = (with_fs w
       (<[CANON_MEMORY_PATH settings :=
            Json (CanonMemory_model_dump
                    {| system_knowledge :=
                         latest "system_knowledge" updates (system_knowledge canon);
                       model_info := latest "model_info" updates (model_info canon);
                       locked := latest "locked" updates (locked canon);
                       version := latest "version" updates (version canon);
                       last_updated := VDatetime now |})]> (fs w)),
     Ok true).
Proof.
  intros Hget Hkeys. unfold update_canon_memory, try_except, mbind, M_bind. simpl.
  rewrite get_canon_memory_eq, Hget. unfold lift.
  rewrite (apply_updates_fields _ _ _ Hkeys). reflexivity.
Qed.

(** C2, at the input on which the code departs from it.  On an
    initialized canon and with ADMIN tier, an updates mapping whose only
    key is [model_dump], a name the record inherits from its base class
    and not one of its fields, is not ignored: the assignment raises, the
    call returns false and nothing is written. *)
Theorem update_canon_memory_inherited_name
    settings CanonMemory_new BaseModel_attr now v w canon :
  BaseModel_attr "model_dump" = true ->
  snd (get_canon_memory settings CanonMemory_new w) = Ok (Some canon) ->
  update_canon_memory settings CanonMemory_new BaseModel_attr now
    [("model_dump", v)] ADMIN_READY w
  = (w, Ok false).
Proof.
  intros Hattr Hget. unfold update_canon_memory, try_except, mbind, M_bind. simpl.
  rewrite get_canon_memory_eq, Hget. unfold lift, hasattr. rewrite Hattr.
  reflexivity.
Qed.

Lemma update_canon_memory_inherited_name_witness :
  update_canon_memory default_settings strict_CanonMemory_new pydantic_attr
    5000%Z [("model_dump", VInt 1)] ADMIN_READY canon_world
  = (canon_world, Ok false).
Proof.
  apply (update_canon_memory_inherited_name default_settings strict_CanonMemory_new
           pydantic_attr 5000%Z (VInt 1) canon_world canon_record).
  - reflexivity.
  - vm_compute. reflexivity.
Defined.

(** On the same store a recognized key and an unknown one: the version
    changes, [last_updated] is stamped, the unknown key leaves no trace. *)
Example update_canon_memory_example :
  update_canon_memory default_settings strict_CanonMemory_new pydantic_attr
    5000%Z [("version", VStr "2.0.0"); ("colour", VStr "red")] ADMIN_READY canon_world
  = (with_fs canon_world
       {[ CANON_MEMORY_PATH default_settings :=
            Json (CanonMemory_model_dump
                    {| system_knowledge := system_knowledge canon_record;
                       model_info := model_info canon_record;
                       locked := VBool true;
                       version := VStr "2.0.0";
                       last_updated := VDatetime 5000%Z |}) ]},
     Ok true).
Proof. vm_compute. reflexivity. Qed.

End CanonProps.

(** ** Context weave *)

Module WeaveProps.
Import Schemas MemoryService Examples SessionProps.

(** A session fetch returns when the backend answers, and touches only
    the cache. *)
Lemma get_session_history_returns settings session_id w :
  (storage_type w = "redis" -> redis_up w = true) ->
  exists w' log,
    get_session_history settings session_id w = (w', Ok log)
    /\ storage_type w' = storage_type w
    /\ fs w' = fs w
    /\ redis_up w' = redis_up w
    /\ redis_db w' = redis_db w.
Proof.
  intros Hup. unfold get_session_history.
  destruct (_sessions w !! session_id) as [log|]; [now eauto 10|].
  unfold _load_session_file, _load_session_redis, redis_get, load_and_cache,
    mbind, M_bind, mret, M_ret.
  by_backend w; simpl.
  - destruct (fs w !! _) as [f|]; [|now eauto 10].
    destruct (load_messages f); now eauto 10.
  - destruct (redis_db w !! _) as [f|]; [|now eauto 10].
    destruct (load_messages f); now eauto 10.
  - match goal with H : String.eqb _ "redis" = true |- _ =>
      apply String.eqb_eq in H; specialize (Hup H) end.
    congruence.
  - now eauto 10.
Qed.

(** A preference fetch returns when the backend answers, and changes
    nothing. *)
Lemma get_user_preferences_returns settings UserPreferences_new user_id w :
  (storage_type w = "redis" -> redis_up w = true) ->
  exists preferences,
    get_user_preferences settings UserPreferences_new user_id w = (w, Ok preferences).
Proof.
  intros Hup.
  unfold get_user_preferences, _load_preferences_file, _load_preferences_redis,
    redis_get, mbind, M_bind, mret, M_ret.
  by_backend w; simpl.
  - destruct (fs w !! _) as [[|data]|]; now eauto.
  - destruct (redis_db w !! _) as [[|data]|]; now eauto.
  - match goal with H : String.eqb _ "redis" = true |- _ =>
      apply String.eqb_eq in H; specialize (Hup H) end.
    congruence.
  - now eauto.
Qed.

(** With the file backend, or with a Redis server that answers, the weave
    returns a context that carries the supplied tier. *)
Lemma build_memory_context_returns
    settings UserPreferences_new CanonMemory_new session_id user_id tier w :
  (storage_type w = "redis" -> redis_up w = true) ->
  exists w' context,
    build_memory_context settings UserPreferences_new CanonMemory_new
      session_id user_id tier w = (w', Ok context)
    /\ authorization_tier context = tier.
Proof.
  intros Hup. unfold build_memory_context, mbind, M_bind.
  destruct (get_session_history_returns settings session_id w Hup)
    as (w1 & log & -> & Hst & _ & Hru & _).
  assert (storage_type w1 = "redis" -> redis_up w1 = true) as Hup1
    by (rewrite Hst, Hru; exact Hup).
  assert (exists preferences,
            match user_id with
            | None => mret None
            | Some user_id =>
                if Validation.is_empty user_id then mret None
                else get_user_preferences settings UserPreferences_new user_id
            end w1 = (w1, Ok preferences)) as [preferences ->].
  { destruct user_id as [u|]; [|now eexists].
    destruct (Validation.is_empty u); [now eexists|].
    apply get_user_preferences_returns, Hup1. }
  rewrite CanonProps.get_canon_memory_eq.
  destruct (snd (get_canon_memory settings CanonMemory_new w1)) as [canon|e] eqn:Hc.
  - now eauto.
  - exfalso. revert Hc. unfold get_canon_memory.
    now destruct (fs w1 !! _) as [[|data]|].
Qed.

(** C4, at the input on which the code departs from it.  With the Redis
    backend and a server that does not answer, the weave for a session
    that is not cached does not degrade to an empty layer: the
    [ConnectionError] of the session fetch escapes from
    [build_memory_context]. *)
Theorem build_memory_context_redis_unreachable
    settings UserPreferences_new CanonMemory_new session_id user_id tier w :
  storage_type w = "redis" ->
  redis_up w = false ->
  _sessions w !! session_id = None ->
  build_memory_context settings UserPreferences_new CanonMemory_new
    session_id user_id tier w
  = (w, Raise ConnectionError).
Proof.
  intros Hst Hdown Hmiss.
  unfold build_memory_context, get_session_history, _load_session_redis,
    redis_get, mbind, M_bind.
  rewrite Hmiss, Hst, Hdown. reflexivity.
Qed.

Lemma build_memory_context_redis_unreachable_witness :
  build_memory_context default_settings strict_UserPreferences_new
    strict_CanonMemory_new "session_123" (Some "user_456") BASIC redis_down_world
  = (redis_down_world, Raise ConnectionError).
Proof.
  apply build_memory_context_redis_unreachable; reflexivity.
Defined.

(** The scenario of the specification on the file backend: a session with
    history, a user without saved preferences, the canon present. *)
Example build_memory_context_example :
  let w := add_messages default_settings "session_123" two_appends canon_world in
  match build_memory_context default_settings strict_UserPreferences_new
          strict_CanonMemory_new "session_123" (Some "user_456") ADVISORY w with
  | (_, Ok context) =>
      session_memory context = map message_of two_appends
      /\ user_preferences context = None
      /\ canon_memory context = Some canon_record
      /\ authorization_tier context = ADVISORY
  | (_, Raise _) => False
  end.
Proof. vm_compute. repeat split. Qed.

End WeaveProps.

(** ** Preference store *)

Module PreferenceProps.
Import Schemas MemoryService MemoryAPI Examples.

(** The validator of the repository rejects the empty user id; no path
    to the store calls it. *)
Example validate_user_id_empty :
  Validation.validate_user_id "" = (false, Some "User ID cannot be empty").
Proof. reflexivity. Qed.

(** C8, at the input on which the code departs from it.  With the file
    backend, a [PUT /preferences] whose [user_id] is empty is not refused:
    the record is stamped and written, under the file name [.json] of the
    preference directory, and the endpoint answers with the record. *)
Theorem update_user_preferences_empty_user_id settings now preferences w :
  user_id preferences = "" ->
  storage_type w = "file" ->
  update_user_preferences settings now preferences w
  = (with_fs w
       (<[path_join (USER_PREFERENCES_PATH settings) ".json" :=
            Json (UserPreferences_model_dump (stamp now preferences))]> (fs w)),
     Response (stamp now preferences)).
Proof.
  intros Hid Hst.
  unfold update_user_preferences, save_user_preferences, _save_preferences_file,
    write_json, preferences_path.
  rewrite Hst. simpl. rewrite Hid. reflexivity.
Qed.

Lemma update_user_preferences_empty_user_id_witness :
  update_user_preferences default_settings 7000%Z anonymous_preferences file_world
  = (with_fs file_world
       {[ "./data/user_preferences/.json" :=
            Json (UserPreferences_model_dump (stamp 7000%Z anonymous_preferences)) ]},
     Response (stamp 7000%Z anonymous_preferences)).
Proof.
  apply (update_user_preferences_empty_user_id default_settings 7000%Z
           anonymous_preferences file_world); reflexivity.
Defined.

End PreferenceProps.

(** ** Session store: persistence and isolation *)

Module StoreProps.
Import Schemas MemoryService Examples SessionProps.

(** An append keeps the backend and its reachability. *)
Lemma add_message_backend settings now session_id role content w :
  let w' := fst (add_message_to_session settings now session_id role content w) in
  storage_type w' = storage_type w /\ redis_up w' = redis_up w.
Proof.
  unfold add_message_to_session, _save_session_file, _save_session_redis,
    write_json, redis_set, get_world, mbind, M_bind.
  simpl. by_backend w; simpl; auto.
Qed.

Lemma load_dump_message (msg : Message) :
  load_message (dump_message msg) = Ok (without_metadata msg).
Proof. destruct msg as [[] c t md]; reflexivity. Qed.

Lemma load_messages_dump (log : list Message) :
  load_messages (Json (VList (map dump_message log)))
  = Ok (map without_metadata log).
Proof.
  unfold load_messages, iterate, result_bind.
  induction log as [|msg log IH]; [reflexivity|].
  simpl. rewrite load_dump_message. simpl. now rewrite IH.
Qed.

(** X1.  The stored form of a session log round-trips: parsing what
    [_save_session_file] / [_save_session_redis] write gives back the
    messages, in order, with role, content and timestamp intact and the
    metadata dropped. *)
Theorem session_log_round_trip (log : list Message) :
  load_messages (Json (VList (map dump_message log)))
  = Ok (map without_metadata log)
  /\ (Forall (fun msg => metadata msg = None) log ->
      load_messages (Json (VList (map dump_message log))) = Ok log).
Proof.
  split; [apply load_messages_dump|].
  intros Hmeta. rewrite load_messages_dump. f_equal.
  induction Hmeta as [|[r c t md] log Hmd _ IH]; [reflexivity|].
  simpl in *. subst md. unfold without_metadata at 1. simpl. now rewrite IH.
Qed.

Lemma session_log_round_trip_witness :
  load_messages (Json (VList (map dump_message (map message_of two_appends))))
  = Ok (map message_of two_appends).
Proof.
  apply (session_log_round_trip (map message_of two_appends)).
  repeat constructor.
Defined.

(** A cache miss with an answering backend: the stored entry is parsed,
    cached and returned. *)
Lemma get_session_history_loads settings session_id w log :
  _sessions w !! session_id = None ->
  (storage_type w = "file" /\
     fs w !! session_path settings session_id
       = Some (Json (VList (map dump_message log))))
  \/ (storage_type w = "redis" /\ redis_up w = true /\
      redis_db w !! session_key session_id
        = Some (Json (VList (map dump_message log)))) ->
  get_session_history settings session_id w
  = (with_sessions w (<[session_id := map without_metadata log]> (_sessions w)),
     Ok (map without_metadata log)).
Proof.
  intros Hmiss Hstored.
  unfold get_session_history, _load_session_file, _load_session_redis, redis_get,
    load_and_cache, mbind, M_bind.
  rewrite Hmiss.
  destruct Hstored as [[Hst Hfile] | (Hst & Hup & Hkey)]; rewrite Hst; simpl.
  - now rewrite Hfile, load_messages_dump.
  - now rewrite Hup, Hkey, load_messages_dump.
Qed.

(** The append over a write that can fail, on the file backend: the
    cache is extended, then the whole cached log is written. *)
Lemma io_add_message_file settings outcome now session_id role content w :
  storage_type w = "file" ->
  let log := (default [] (_sessions w !! session_id)
              ++ [message_of (now, role, content)])%list in
  MemoryServiceIO.add_message_to_session settings outcome now session_id role
    content w
  = MemoryServiceIO.write_json outcome (session_path settings session_id)
      (VList (map dump_message log))
      (with_sessions w (<[session_id := log]> (_sessions w))).
Proof.
  intros Hst.
  unfold MemoryServiceIO.add_message_to_session, MemoryServiceIO._save_session_file,
    get_world, messages_data, mbind, M_bind.
  simpl. rewrite Hst. simpl. now rewrite lookup_insert_eq.
Qed.

(** With every write going through, the append is the one of
    [MemoryService]. *)
Lemma io_add_message_written settings now session_id role content w :
  MemoryServiceIO.add_message_to_session settings MemoryServiceIO.Written now
    session_id role content w
  = add_message_to_session settings now session_id role content w.
Proof. reflexivity. Qed.

(** An append over a write that can fail extends the cached log of its
    session whatever the write meets, and keeps the backend. *)
Lemma io_add_message_cache settings outcome now session_id role content w :
  let w' := fst (MemoryServiceIO.add_message_to_session settings outcome now
                   session_id role content w) in
  _sessions w' !! session_id
  = Some (default [] (_sessions w !! session_id)
          ++ [message_of (now, role, content)])%list
  /\ storage_type w' = storage_type w
  /\ redis_up w' = redis_up w.
Proof.
  unfold MemoryServiceIO.add_message_to_session, MemoryServiceIO._save_session_file,
    MemoryServiceIO.write_json, _save_session_redis, redis_set, get_world,
    mbind, M_bind.
  simpl. by_backend w; simpl; try destruct outcome; simpl;
    (split; [apply lookup_insert_eq | split; congruence]).
Qed.

(** On the file backend an append returns only when its write went
    through, and the file then holds the whole cached log. *)
Lemma io_add_message_stored settings outcome now session_id role content w :
  storage_type w = "file" ->
  let run := MemoryServiceIO.add_message_to_session settings outcome now
               session_id role content w in
  snd run = Ok tt ->
  outcome = MemoryServiceIO.Written
  /\ storage_type (fst run) = "file"
  /\ fs (fst run) !! session_path settings session_id
     = Some (Json (VList (map dump_message
                            (default [] (_sessions w !! session_id)
                             ++ [message_of (now, role, content)])))).
Proof.
  intros Hst run. subst run. rewrite (io_add_message_file _ _ _ _ _ _ _ Hst).
  destruct outcome; simpl; [intros _ | discriminate | discriminate].
  split; [reflexivity|]. split; [assumption | apply lookup_insert_eq].
Qed.

(** X2.  With the file backend, an append that returns has put the whole
    cached log of the session on disk: a fresh process reads back, in
    order, everything the old process had cached for the session, the new
    message included, whether or not the earlier appends were written. *)
Theorem restart_reads_back settings outcome now session_id role content w :
  storage_type w = "file" ->
  let run := MemoryServiceIO.add_message_to_session settings outcome now
               session_id role content w in
  snd run = Ok tt ->
  snd (get_session_history settings session_id (fresh_process (fst run)))
  = Ok (map without_metadata
          (default [] (_sessions w !! session_id)
           ++ [message_of (now, role, content)])).
Proof.
  intros Hst run Hret.
  destruct (io_add_message_stored settings outcome now session_id role content w
              Hst Hret) as (_ & Hst' & Hfile).
  fold run in Hst', Hfile.
  erewrite get_session_history_loads; [reflexivity | apply lookup_empty |].
  left. unfold fresh_process. simpl. split; assumption.
Qed.

(** The write of the first turn is refused, the one of the second goes
    through: the other process reads both. *)
Lemma restart_reads_back_witness :
  let w := fst (MemoryServiceIO.add_message_to_session default_settings
                  MemoryServiceIO.Refused 1000%Z "session_123" USER
                  "What is the purpose of Souent?" file_world) in
  let run := MemoryServiceIO.add_message_to_session default_settings
               MemoryServiceIO.Written 2000%Z "session_123" ASSISTANT
               "Souent is a logic-first AI chatbot." w in
  fs w = ∅
  /\ snd (get_session_history default_settings "session_123"
            (fresh_process (fst run)))
     = Ok (map message_of two_appends).
Proof.
  intros w run. split; [reflexivity|].
  apply (restart_reads_back default_settings MemoryServiceIO.Written 2000%Z
           "session_123" ASSISTANT "Souent is a logic-first AI chatbot." w);
    reflexivity.
Defined.

(** X3.  An append to a session that is not cached starts a new log:
    with the file backend, when the append returns, whatever history the
    session file held has been replaced by the single new entry, and that
    entry is all a later read, in this process or the next, returns. *)
Theorem append_uncached_replaces_history
    settings outcome now session_id role content w :
  storage_type w = "file" ->
  _sessions w !! session_id = None ->
  let run := MemoryServiceIO.add_message_to_session settings outcome now
               session_id role content w in
  snd run = Ok tt ->
  fs (fst run) !! session_path settings session_id
    = Some (Json (VList [dump_message (message_of (now, role, content))]))
  /\ snd (get_session_history settings session_id (fst run))
     = Ok [message_of (now, role, content)]
  /\ snd (get_session_history settings session_id (fresh_process (fst run)))
     = Ok [message_of (now, role, content)].
Proof.
  intros Hst Hmiss run Hret.
  destruct (io_add_message_stored settings outcome now session_id role content w
              Hst Hret) as (_ & Hst' & Hfile).
  destruct (io_add_message_cache settings outcome now session_id role content w)
    as (Hcache & _ & _).
  fold run in Hst', Hfile, Hcache. simpl in Hcache.
  rewrite Hmiss in Hfile, Hcache. simpl in Hfile, Hcache.
  repeat split.
  - exact Hfile.
  - now rewrite (get_session_history_cached _ _ _ _ Hcache).
  - erewrite (get_session_history_loads settings session_id (fresh_process (fst run))
                [message_of (now, role, content)]);
      [reflexivity | apply lookup_empty |].
    left. unfold fresh_process. simpl. split; assumption.
Qed.

Lemma append_uncached_replaces_history_witness :
  let w := fresh_process
             (add_messages default_settings "session_123" two_appends file_world) in
  let run := MemoryServiceIO.add_message_to_session default_settings
               MemoryServiceIO.Written 3000%Z "session_123" USER
               "And who develops it?" w in
  fs w !! session_path default_settings "session_123"
    = Some (Json (VList (map dump_message (map message_of two_appends))))
  /\ snd (get_session_history default_settings "session_123"
            (fresh_process (fst run)))
     = Ok [message_of (3000%Z, USER, "And who develops it?")].
Proof.
  intros w run. split; [reflexivity|].
  apply (append_uncached_replaces_history default_settings MemoryServiceIO.Written
           3000%Z "session_123" USER "And who develops it?" w); reflexivity.
Defined.

(** *** Isolation of sessions *)











End StoreProps.

(** ** Context weave: what it reads and what it leaves alone *)

Module ComposeProps.
Import Schemas MemoryService Examples SessionProps.

(** A session read changes nothing durable, and in the cache at most the
    entry of the session it reads. *)
Lemma get_session_history_frame settings session_id w :
  let w' := fst (get_session_history settings session_id w) in
  storage_type w' = storage_type w
  /\ fs w' = fs w
  /\ redis_up w' = redis_up w
  /\ redis_db w' = redis_db w
  /\ forall b, b <> session_id -> _sessions w' !! b = _sessions w !! b.
Proof.
  unfold get_session_history, _load_session_file, _load_session_redis, redis_get,
    load_and_cache, mbind, M_bind, mret, M_ret.
  destruct (_sessions w !! session_id); [simpl; auto 10|].
  by_backend w; simpl.
  - destruct (fs w !! _) as [f|]; [|simpl; auto 10].
    destruct (load_messages f); simpl; repeat split; auto.
    intros b Hb. now rewrite lookup_insert_ne.
  - destruct (redis_db w !! _) as [f|]; [|simpl; auto 10].
    destruct (load_messages f); simpl; repeat split; auto.
    intros b Hb. now rewrite lookup_insert_ne.
  - simpl; auto 10.
  - simpl; auto 10.
Qed.

Lemma get_user_preferences_pure settings UserPreferences_new user_id w :
  fst (get_user_preferences settings UserPreferences_new user_id w) = w.
Proof.
  unfold get_user_preferences, _load_preferences_file, _load_preferences_redis,
    redis_get, mbind, M_bind, mret, M_ret.
  by_backend w; simpl; try reflexivity.
  - now destruct (fs w !! _) as [[|data]|].
  - now destruct (redis_db w !! _) as [[|data]|].
Qed.

(** What a preference read depends on. *)
Lemma get_user_preferences_depends settings UserPreferences_new user_id w1 w2 :
  storage_type w1 = storage_type w2 ->
  fs w1 = fs w2 ->
  redis_up w1 = redis_up w2 ->
  redis_db w1 = redis_db w2 ->
  snd (get_user_preferences settings UserPreferences_new user_id w1)
  = snd (get_user_preferences settings UserPreferences_new user_id w2).
Proof.
  intros Hst Hfs Hup Hdb.
  unfold get_user_preferences, _load_preferences_file, _load_preferences_redis,
    redis_get, mbind, M_bind, mret, M_ret.
  rewrite Hst, Hfs, Hup, Hdb.
  by_backend w2; simpl; try reflexivity.
  - now destruct (fs w2 !! _) as [[|data]|].
  - now destruct (redis_db w2 !! _) as [[|data]|].
Qed.

Lemma get_canon_memory_depends settings CanonMemory_new w1 w2 :
  fs w1 = fs w2 ->
  snd (get_canon_memory settings CanonMemory_new w1)
  = snd (get_canon_memory settings CanonMemory_new w2).
Proof.
  intros Hfs. unfold get_canon_memory. rewrite Hfs.
  now destruct (fs w2 !! _) as [[|data]|].
Qed.

Lemma preference_layer_pure settings UserPreferences_new user_id w :
  fst (preference_layer settings UserPreferences_new user_id w) = w.
Proof.
  unfold preference_layer. destruct user_id as [u|]; [|reflexivity].
  destruct (Validation.is_empty u); [reflexivity|].
  apply get_user_preferences_pure.
Qed.

(** The weave, step by step. *)
Lemma build_memory_context_unfold
    settings UserPreferences_new CanonMemory_new session_id user_id tier w :
  build_memory_context settings UserPreferences_new CanonMemory_new
    session_id user_id tier w
  = match get_session_history settings session_id w with
    | (w1, Raise e) => (w1, Raise e)
    | (w1, Ok log) =>
        match preference_layer settings UserPreferences_new user_id w1 with
        | (w2, Raise e) => (w2, Raise e)
        | (w2, Ok preferences) =>
            match get_canon_memory settings CanonMemory_new w2 with
            | (w3, Raise e) => (w3, Raise e)
            | (w3, Ok canon) =>
                (w3, Ok {| session_memory := log;
                           user_preferences := preferences;
                           canon_memory := canon;
                           authorization_tier := tier |})
            end
        end
    end.
Proof.
  unfold build_memory_context, preference_layer, mbind, M_bind, mret, M_ret.
  destruct (get_session_history settings session_id w) as [w1 [log|e]];
    [|reflexivity].
  destruct user_id as [u|]; [destruct (Validation.is_empty u)|].
  - now destruct (get_canon_memory settings CanonMemory_new w1) as [w3 [canon|e]].
  - destruct (get_user_preferences settings UserPreferences_new u w1)
      as [w2 [preferences|e]]; [|reflexivity].
    now destruct (get_canon_memory settings CanonMemory_new w2) as [w3 [canon|e]].
  - now destruct (get_canon_memory settings CanonMemory_new w1) as [w3 [canon|e]].
Qed.

(** X5.  The weave is read-only: whatever it returns or raises, it leaves
    the backend, the files and the Redis keys exactly as they were, and in
    the session cache it touches at most the entry of the session it
    reads. *)
Theorem build_memory_context_read_only
    settings UserPreferences_new CanonMemory_new session_id user_id tier w :
  let w' := fst (build_memory_context settings UserPreferences_new CanonMemory_new
                   session_id user_id tier w) in
  storage_type w' = storage_type w
  /\ fs w' = fs w
  /\ redis_up w' = redis_up w
  /\ redis_db w' = redis_db w
  /\ forall b, b <> session_id -> _sessions w' !! b = _sessions w !! b.
Proof.
  rewrite build_memory_context_unfold.
  pose proof (get_session_history_frame settings session_id w) as Hframe.
  destruct (get_session_history settings session_id w) as [w1 [log|e]];
    simpl in Hframe; [|exact Hframe].
  pose proof (preference_layer_pure settings UserPreferences_new user_id w1) as Hp.
  destruct (preference_layer settings UserPreferences_new user_id w1)
    as [w2 [preferences|e]]; simpl in Hp; subst w2; [|exact Hframe].
  pose proof (CanonProps.get_canon_memory_pure settings CanonMemory_new w1) as Hc.
  destruct (get_canon_memory settings CanonMemory_new w1) as [w3 [canon|e]];
    simpl in Hc; subst w3; exact Hframe.
Qed.

(** X6.  With the file backend, or a Redis server that answers, the weave
    returns, and its result is the three independent reads put together:
    the session history, the preferences of the user (absent when no user
    id or an empty one is given) and the canon, each as a read of the
    store before the call gives it, under the supplied tier. *)
Theorem build_memory_context_layers
    settings UserPreferences_new CanonMemory_new session_id user_id tier w :
  (storage_type w = "redis" -> redis_up w = true) ->
  exists w' context,
    build_memory_context settings UserPreferences_new CanonMemory_new
      session_id user_id tier w = (w', Ok context)
    /\ snd (get_session_history settings session_id w)
       = Ok (session_memory context)
    /\ snd (preference_layer settings UserPreferences_new user_id w)
       = Ok (user_preferences context)
    /\ snd (get_canon_memory settings CanonMemory_new w)
       = Ok (canon_memory context)
    /\ authorization_tier context = tier.
Proof.
  intros Hup. rewrite build_memory_context_unfold.
  pose proof (get_session_history_frame settings session_id w) as Hframe.
  destruct (WeaveProps.get_session_history_returns settings session_id w Hup)
    as (w1 & log & Hget & _).
  rewrite Hget in *. simpl in Hframe. destruct Hframe as (Hst & Hfs & Hru & Hdb & _).
  assert (snd (preference_layer settings UserPreferences_new user_id w1)
          = snd (preference_layer settings UserPreferences_new user_id w)) as Hpl.
  { unfold preference_layer. destruct user_id as [u|]; [|reflexivity].
    destruct (Validation.is_empty u); [reflexivity|].
    now apply get_user_preferences_depends. }
  assert (exists preferences,
            preference_layer settings UserPreferences_new user_id w1
            = (w1, Ok preferences)) as [preferences Hpref].
  { unfold preference_layer. destruct user_id as [u|]; [|now eexists].
    destruct (Validation.is_empty u); [now eexists|].
    apply WeaveProps.get_user_preferences_returns. rewrite Hst, Hru. exact Hup. }
  rewrite Hpref in *. simpl in Hpl.
  pose proof (get_canon_memory_depends settings CanonMemory_new w1 w Hfs) as Hcd.
  rewrite CanonProps.get_canon_memory_eq in *.
  destruct (snd (get_canon_memory settings CanonMemory_new w1)) as [canon|e] eqn:Hc.
  - do 2 eexists. simpl. repeat split; eauto.
  - exfalso. revert Hc. unfold get_canon_memory.
    now destruct (fs w1 !! _) as [[|data]|].
Qed.

Lemma build_memory_context_layers_witness :
  exists w' context,
    build_memory_context default_settings strict_UserPreferences_new
      strict_CanonMemory_new "session_123" (Some "user_456") ADVISORY canon_world
    = (w', Ok context)
    /\ authorization_tier context = ADVISORY.
Proof.
  destruct (build_memory_context_layers default_settings strict_UserPreferences_new
              strict_CanonMemory_new "session_123" (Some "user_456") ADVISORY
              canon_world) as (w' & context & Hrun & _ & _ & _ & Htier).
  - discriminate.
  - now exists w', context.
Defined.

End ComposeProps.

(** ** Preference and canon stores *)

Module RecordProps.
Import Schemas MemoryService Examples SessionProps.

(** X7.  With the file or the Redis backend, a [put] that returns is
    read back by [get]: the record as handed in, with [updated_at] set to
    the time of the save, provided the constructor reads the dump of that
    record back as the record.  Whatever was stored for the user before
    is replaced. *)
Theorem save_then_get_user_preferences
    settings UserPreferences_new outcome now preferences w saved :
  storage_type w = "file" \/ storage_type w = "redis" ->
  UserPreferences_new (UserPreferences_model_dump (stamp now preferences))
    = Some (stamp now preferences) ->
  let run := MemoryServiceIO.save_user_preferences settings outcome now
               preferences w in
  snd run = Ok saved ->
  saved = stamp now preferences
  /\ get_user_preferences settings UserPreferences_new (user_id preferences)
       (fst run)
     = (fst run, Ok (Some (stamp now preferences))).
Proof.
  intros Hback Hnew run. subst run.
  unfold MemoryServiceIO.save_user_preferences,
    MemoryServiceIO._save_preferences_file, MemoryServiceIO.write_json,
    _save_preferences_redis, get_user_preferences, _load_preferences_file,
    _load_preferences_redis, redis_set, redis_get, mbind, M_bind, mret, M_ret.
  destruct Hback as [Hst | Hst]; rewrite Hst; simpl.
  - destruct outcome; simpl; [|discriminate|discriminate].
    intros [= <-]. rewrite Hst. simpl. rewrite lookup_insert_eq.
    now rewrite Hnew.
  - destruct (redis_up w) eqn:Hup; simpl; [|discriminate].
    intros [= <-]. rewrite Hst, Hup. simpl. rewrite lookup_insert_eq.
    now rewrite Hnew.
Qed.

Lemma save_then_get_user_preferences_witness :
  let run := MemoryServiceIO.save_user_preferences default_settings
               MemoryServiceIO.Written 7000%Z named_preferences file_world in
  get_user_preferences default_settings strict_UserPreferences_new "user_456"
    (fst run)
  = (fst run, Ok (Some (stamp 7000%Z named_preferences))).
Proof.
  apply (save_then_get_user_preferences default_settings strict_UserPreferences_new
           MemoryServiceIO.Written 7000%Z named_preferences file_world
           (stamp 7000%Z named_preferences)).
  - left. reflexivity.
  - reflexivity.
  - reflexivity.
Defined.

(** The loop over the updates, when it completes: every declared field
    ends with the last value given for it, and no other key has left a
    trace. *)
Lemma apply_updates_ok_fields BaseModel_attr updates :
  forall canon canon',
    apply_updates BaseModel_attr updates canon = Ok canon' ->
    canon' = {| system_knowledge :=
                  latest "system_knowledge" updates (system_knowledge canon);
                model_info := latest "model_info" updates (model_info canon);
                locked := latest "locked" updates (locked canon);
                version := latest "version" updates (version canon);
                last_updated :=
                  latest "last_updated" updates (last_updated canon) |}.
Proof.
  induction updates as [|[k v] rest IH]; intros canon canon'.
  - intros [= <-]. now destruct canon.
  - unfold latest. simpl. unfold hasattr, is_field, setattr. simpl.
    destruct (String.eqb_spec k "system_knowledge") as [->|_];
      [simpl; intros H; now rewrite (IH _ _ H)|].
    destruct (String.eqb_spec k "model_info") as [->|_];
      [simpl; intros H; now rewrite (IH _ _ H)|].
    destruct (String.eqb_spec k "locked") as [->|_];
      [simpl; intros H; now rewrite (IH _ _ H)|].
    destruct (String.eqb_spec k "version") as [->|_];
      [simpl; intros H; now rewrite (IH _ _ H)|].
    destruct (String.eqb_spec k "last_updated") as [->|_];
      [simpl; intros H; now rewrite (IH _ _ H)|].
    simpl. destruct (BaseModel_attr k); simpl; [discriminate|].
    intros H. now rewrite (IH _ _ H).
Qed.

(** The update over a write that can fail, case by case. *)
Lemma io_update_canon_memory_cases
    settings CanonMemory_new BaseModel_attr outcome now updates tier w :
  let run := MemoryServiceIO.update_canon_memory settings CanonMemory_new
               BaseModel_attr outcome now updates tier w in
  run = (w, Ok false)
  \/ (exists e, outcome = MemoryServiceIO.Truncated e
        /\ run = (with_fs w (<[CANON_MEMORY_PATH settings := Garbage]> (fs w)),
                  Ok false))
  \/ (exists canon canon',
        tier = ADMIN_READY
        /\ outcome = MemoryServiceIO.Written
        /\ snd (get_canon_memory settings CanonMemory_new w) = Ok (Some canon)
        /\ apply_updates BaseModel_attr updates canon = Ok canon'
        /\ run = (with_fs w
                    (<[CANON_MEMORY_PATH settings :=
                         Json (CanonMemory_model_dump
                                 {| system_knowledge := system_knowledge canon';
                                    model_info := model_info canon';
                                    locked := locked canon';
                                    version := version canon';
                                    last_updated := VDatetime now |})]> (fs w)),
                  Ok true)).
Proof.
  intros run. subst run.
  unfold MemoryServiceIO.update_canon_memory, MemoryServiceIO.write_json,
    try_except, mbind, M_bind, mret, M_ret, lift.
  destruct tier; simpl; try now left.
  rewrite CanonProps.get_canon_memory_eq.
  destruct (snd (get_canon_memory settings CanonMemory_new w))
    as [[canon|]|e] eqn:Hget; [|now left|now left].
  destruct (apply_updates BaseModel_attr updates canon) as [canon'|e] eqn:Happly;
    [|now left].
  simpl. destruct outcome; simpl.
  - right. right. exists canon, canon'. repeat split; assumption.
  - now left.
  - right. left. now eexists.
Qed.

(** X8.  An update with public keys that returns true was authorized,
    found an initialized canon and has rewritten the canon file with a
    record in which [system_knowledge], [model_info], [locked] and
    [version] each hold the last value the updates give them, or their
    old value when the updates do not mention them, and [last_updated] is
    the time of the call, even when the updates carry a [last_updated] of
    their own.  Keys that are no attribute of the record leave no
    trace. *)
Theorem authorized_update_effect
    settings CanonMemory_new BaseModel_attr outcome now updates tier w :
  Forall (fun kv => public_name (fst kv) = true) updates ->
  let run := MemoryServiceIO.update_canon_memory settings CanonMemory_new
               BaseModel_attr outcome now updates tier w in
  snd run = Ok true ->
  tier = ADMIN_READY
  /\ exists canon stored,
       snd (get_canon_memory settings CanonMemory_new w) = Ok (Some canon)
       /\ fst run = with_fs w (<[CANON_MEMORY_PATH settings :=
                                   Json (CanonMemory_model_dump stored)]> (fs w))
       /\ system_knowledge stored
          = latest "system_knowledge" updates (system_knowledge canon)
       /\ model_info stored = latest "model_info" updates (model_info canon)
       /\ locked stored = latest "locked" updates (locked canon)
       /\ version stored = latest "version" updates (version canon)
       /\ last_updated stored = VDatetime now.
Proof.
  intros _ run.
  destruct (io_update_canon_memory_cases settings CanonMemory_new BaseModel_attr
              outcome now updates tier w)
    as [Hrun | [(e & _ & Hrun) | (canon & canon' & Htier & _ & Hget & Happly & Hrun)]];
    fold run in Hrun; rewrite Hrun; simpl; try discriminate.
  intros _. split; [assumption|].
  apply apply_updates_ok_fields in Happly. subst canon'. simpl.
  exists canon. eexists. split; [assumption|]. split; [reflexivity|].
  repeat split.
Qed.

Lemma authorized_update_effect_witness :
  exists stored,
    fst (MemoryServiceIO.update_canon_memory default_settings
           strict_CanonMemory_new pydantic_attr MemoryServiceIO.Written 5000%Z
           [("version", VStr "2.0.0"); ("colour", VStr "red");
            ("last_updated", VStr "never")] ADMIN_READY canon_world)
    = with_fs canon_world
        (<[CANON_MEMORY_PATH default_settings :=
             Json (CanonMemory_model_dump stored)]> (fs canon_world))
    /\ version stored = VStr "2.0.0"
    /\ last_updated stored = VDatetime 5000%Z.
Proof.
  destruct (authorized_update_effect default_settings strict_CanonMemory_new
              pydantic_attr MemoryServiceIO.Written 5000%Z
              [("version", VStr "2.0.0"); ("colour", VStr "red");
               ("last_updated", VStr "never")] ADMIN_READY canon_world)
    as (_ & canon & stored & _ & Hrun & _ & _ & _ & Hversion & Hstamp).
  - repeat constructor.
  - reflexivity.
  - exists stored. repeat split; assumption.
Defined.

(** X9.  [update_canon_memory] never raises, for any tier, any updates
    and whatever its write meets, and all it can change is the file at
    the canon path: when it returns true that file has been rewritten;
    when it returns false the store is as it was, unless the dump raised
    after the file had been opened, in which case the canon file is left
    truncated. *)
Theorem update_canon_memory_frame
    settings CanonMemory_new BaseModel_attr outcome now updates tier w :
  let run := MemoryServiceIO.update_canon_memory settings CanonMemory_new
               BaseModel_attr outcome now updates tier w in
  (exists ok, snd run = Ok ok)
  /\ (snd run = Ok true ->
        exists data,
          fst run = with_fs w (<[CANON_MEMORY_PATH settings := Json data]> (fs w)))
  /\ (snd run = Ok false ->
        fst run = w
        \/ exists e,
             outcome = MemoryServiceIO.Truncated e
             /\ fst run = with_fs w (<[CANON_MEMORY_PATH settings := Garbage]>
                                       (fs w))).
Proof.
  intros run.
  destruct (io_update_canon_memory_cases settings CanonMemory_new BaseModel_attr
              outcome now updates tier w)
    as [Hrun | [(e & Hout & Hrun) | (canon & canon' & _ & _ & _ & _ & Hrun)]];
    fold run in Hrun; rewrite Hrun; simpl.
  - split; [now eexists|]. split; [discriminate|]. intros _. now left.
  - split; [now eexists|]. split; [discriminate|]. intros _. right. now exists e.
  - split; [now eexists|]. split; [intros _; now eexists | discriminate].
Qed.

(** A dump that raises after the canon file was opened: the update
    answers false and the canon is gone for every later read. *)
Example canon_lost_on_failed_dump :
  let run := MemoryServiceIO.update_canon_memory default_settings
               strict_CanonMemory_new pydantic_attr
               (MemoryServiceIO.Truncated RecursionError) 5000%Z
               [("version", VStr "2.0.0")] ADMIN_READY canon_world in
  snd (get_canon_memory default_settings strict_CanonMemory_new canon_world)
    = Ok (Some canon_record)
  /\ snd run = Ok false
  /\ snd (get_canon_memory default_settings strict_CanonMemory_new (fst run))
     = Ok None.
Proof. vm_compute. repeat split. Qed.

End RecordProps.

(** ** Admission controller: bounds, bursts and clean-up *)

Module BucketProps.
Import RateLimiter Examples RateLimiterProps.

(** The decision of a call, in terms of the order on the rationals. *)
Lemma check_rate_limit_permitted settings self client_ip now factory_time :
  let bucket := bucket_of settings factory_time client_ip self in
  fst (snd (_check_rate_limit settings now factory_time client_ip self)) = true
  <-> (1 <= inject_Z (max_tokens self)
       /\ 1 <= fst bucket + (now - snd bucket) * refill_rate self)%Q.
Proof.
  simpl. rewrite check_rate_limit_step.
  rewrite <- Q.min_glb_iff, <- Qle_bool_iff.
  now destruct (Qle_bool 1 _).
Qed.









End BucketProps.

(** ** Identifier and content validation *)

Module ValidationProps.
Import Validation.

(** The strings that [[cls]*$] accepts: a word over the class, possibly
    followed by one newline. *)
Lemma class_star_dollar_iff (cls : ascii -> bool) (s : string) :
  cls newline = false ->
  class_star_dollar cls s = true
  <-> exists w, forallb cls (list_ascii_of_string w) = true
                /\ (s = w \/ s = w ++ nl).
Proof.
  intros Hnl. induction s as [|c s IH].
  - split; [|reflexivity]. intros _. exists EmptyString. now split; [|left].
  - cbn [class_star_dollar]. destruct (cls c) eqn:Hc.
    + rewrite IH. split.
      * intros (w & Hw & Hs). exists (String c w). split.
        -- cbn. now rewrite Hc.
        -- destruct Hs as [-> | ->]; [now left | now right].
      * intros ([|d w] & Hw & Hs).
        -- destruct Hs as [Hs | Hs]; [discriminate|].
           injection Hs as -> _. congruence.
        -- cbn in Hw. apply andb_true_iff in Hw as [_ Hw].
           exists w. split; [assumption|].
           destruct Hs as [Hs | Hs]; injection Hs as _ ->; [now left | now right].
    + unfold at_dollar. split.
      * destruct s as [|d s]; [|discriminate].
        intros Heq. apply Ascii.eqb_eq in Heq as ->.
        exists EmptyString. split; [reflexivity | now right].
      * intros ([|d w] & Hw & Hs).
        -- destruct Hs as [Hs | Hs]; [discriminate|].
           injection Hs as -> ->. apply Ascii.eqb_refl.
        -- cbn in Hw. apply andb_true_iff in Hw as [Hd _].
           destruct Hs as [Hs | Hs]; injection Hs as -> _; congruence.
Qed.

Lemma class_plus_dollar_iff (cls : ascii -> bool) (s : string) :
  cls newline = false ->
  class_plus_dollar cls s = true
  <-> exists w, w <> EmptyString
                /\ forallb cls (list_ascii_of_string w) = true
                /\ (s = w \/ s = w ++ nl).
Proof.
  intros Hnl. destruct s as [|c s].
  - split; [discriminate|]. intros ([|d w] & Hne & _ & [Hs | Hs]);
      try congruence; discriminate.
  - cbn [class_plus_dollar]. rewrite andb_true_iff, class_star_dollar_iff by assumption.
    split.
    + intros (Hc & w & Hw & Hs). exists (String c w). split; [discriminate|]. split.
      * cbn. now rewrite Hc.
      * destruct Hs as [-> | ->]; [now left | now right].
    + intros ([|d w] & Hne & Hw & Hs); [congruence|].
      cbn in Hw. apply andb_true_iff in Hw as [Hd Hw].
      destruct Hs as [Hs | Hs]; injection Hs as -> ->;
        (split; [assumption|]); exists w; (split; [assumption|]);
        [now left | now right].
Qed.

(** X14.  [validate_session_id] accepts exactly the strings of at most 64
    characters that are a non-empty word over [[a-zA-Z0-9_-]], or such a
    word followed by one newline (Python's [$] also matches before a final
    newline). *)
Theorem validate_session_id_accepts (session_id : string) :
  validate_session_id session_id = (true, None)
  <-> (String.length session_id <= 64)%nat
      /\ exists w, w <> EmptyString
                   /\ forallb session_id_char (list_ascii_of_string w) = true
                   /\ (session_id = w \/ session_id = w ++ nl).
Proof.
  rewrite <- (class_plus_dollar_iff session_id_char session_id eq_refl).
  unfold validate_session_id, SESSION_ID_PATTERN, MAX_SESSION_ID_LENGTH.
  destruct session_id as [|c s]; [split; [discriminate | intros [_ H]; discriminate]|].
  cbn [is_empty].
  destruct (64 <? String.length (String c s))%nat eqn:Hlen.
  - apply Nat.ltb_lt in Hlen. split; [discriminate | intros [H _]; lia].
  - apply Nat.ltb_ge in Hlen.
    destruct (class_plus_dollar session_id_char (String c s));
      split; try discriminate; auto; intros [_ H]; discriminate.
Qed.

(** X15.  [validate_user_id] accepts exactly the strings of at most 128
    characters that are a non-empty word over [[a-zA-Z0-9_@.-]], or such a
    word followed by one newline. *)
Theorem validate_user_id_accepts (user_id : string) :
  validate_user_id user_id = (true, None)
  <-> (String.length user_id <= 128)%nat
      /\ exists w, w <> EmptyString
                   /\ forallb user_id_char (list_ascii_of_string w) = true
                   /\ (user_id = w \/ user_id = w ++ nl).
Proof.
  rewrite <- (class_plus_dollar_iff user_id_char user_id eq_refl).
  unfold validate_user_id, USER_ID_PATTERN, MAX_USER_ID_LENGTH.
  destruct user_id as [|c s]; [split; [discriminate | intros [_ H]; discriminate]|].
  cbn [is_empty].
  destruct (128 <? String.length (String c s))%nat eqn:Hlen.
  - apply Nat.ltb_lt in Hlen. split; [discriminate | intros [H _]; lia].
  - apply Nat.ltb_ge in Hlen.
    destruct (class_plus_dollar user_id_char (String c s));
      split; try discriminate; auto; intros [_ H]; discriminate.
Qed.

(** *** Content safety *)

Section ContentSafetyProps.

Context {char : Type} `{EqDecision char}.
Variable is_space : char -> bool.
Variable space : char.
Variable lower : list char -> list char.

(** No word is longer than the text it was cut from. *)
Lemma split_from_length (content : list char) :
  forall word w,
    In w (split_from is_space word content) ->
    (length w <= length word + length content)%nat.
Proof.
  induction content as [|c rest IH]; intros word w Hin; cbn [split_from] in Hin.
  - destruct word as [|d word]; [destruct Hin|].
    destruct Hin as [<- | []]. rewrite length_rev. lia.
  - destruct (is_space c).
    + destruct word as [|d word].
      * specialize (IH [] w Hin). cbn in *. lia.
      * destruct Hin as [<- | Hin].
        -- rewrite length_rev. cbn. lia.
        -- specialize (IH [] w Hin). cbn in *. lia.
    + specialize (IH (c :: word) w Hin). cbn in *. lia.
Qed.

(** X16.  [check_content_safety] accepts a text exactly when none of its
    words is longer than 200 characters and it is not both longer than
    500 characters and made of fewer than 10 distinct characters (case
    and blanks apart); the test of the length against 100 decides
    nothing. *)
Theorem check_content_safety_accepts (content : list char) :
  check_content_safety is_space space lower content = (true, None)
  <-> Forall (fun word => (length word <= 200)%nat) (split is_space content)
      /\ ~ ((500 < length content)%nat
            /\ (unique_chars space lower content < 10)%nat).
Proof.
  unfold check_content_safety.
  destruct (existsb _ (split is_space content)) eqn:Hlong.
  - split; [discriminate|]. intros [Hall _]. exfalso.
    apply existsb_exists in Hlong as (w & Hin & Hw).
    apply Nat.ltb_lt in Hw.
    apply (proj1 (List.Forall_forall _ _) Hall) in Hin. lia.
  - assert (Forall (fun word => (length word <= 200)%nat) (split is_space content))
      as Hall.
    { apply List.Forall_forall. intros w Hin.
      destruct (200 <? length w)%nat eqn:Hw; [|now apply Nat.ltb_ge in Hw].
      exfalso. assert (existsb (fun word => (200 <? length word)%nat)
                         (split is_space content) = true) as Hex
        by (apply existsb_exists; eauto).
      congruence. }
    destruct (100 <? length content)%nat eqn:H100.
    + destruct (unique_chars space lower content <? 10)%nat eqn:Hu;
        destruct (500 <? length content)%nat eqn:H500; cbn [andb].
      * apply Nat.ltb_lt in Hu, H500.
        split; [discriminate | intros [_ Hn]; exfalso; apply Hn; now split].
      * apply Nat.ltb_ge in H500.
        split; [intros _; split; [assumption | lia] | reflexivity].
      * apply Nat.ltb_ge in Hu.
        split; [intros _; split; [assumption | lia] | reflexivity].
      * apply Nat.ltb_ge in Hu.
        split; [intros _; split; [assumption | lia] | reflexivity].
    + apply Nat.ltb_ge in H100.
      split; [intros _; split; [assumption | lia] | reflexivity].
Qed.

(** X17.  Every text of at most 200 characters passes
    [check_content_safety]. *)
Theorem check_content_safety_short (content : list char) :
  (length content <= 200)%nat ->
  check_content_safety is_space space lower content = (true, None).
Proof.
  intros Hlen. unfold check_content_safety.
  assert (existsb (fun word => (200 <? length word)%nat)
            (split is_space content) = false) as ->.
  { destruct (existsb _ _) eqn:Hex; [|reflexivity].
    apply existsb_exists in Hex as (w & Hin & Hw). apply Nat.ltb_lt in Hw.
    apply split_from_length in Hin. cbn in Hin. lia. }
  destruct (100 <? length content)%nat; [|reflexivity].
  assert ((500 <? length content)%nat = false) as -> by (apply Nat.ltb_ge; lia).
  now rewrite andb_false_r.
Qed.

End ContentSafetyProps.

Lemma check_content_safety_short_witness :
  check_content_safety (fun c => Ascii.eqb c " ") " "%char (fun s => s)
    (list_ascii_of_string "What is the purpose of Souent?")
  = (true, None).
Proof.
  apply check_content_safety_short. cbn. lia.
Defined.

End ValidationProps.

(** ** Session identifiers: the version digit *)

Module UuidProps.
Import Validation MemoryService.

Lemma get_string_of_list (l : list ascii) (n : nat) :
  String.get n (string_of_list_ascii l) = nth_error l n.
Proof.
  revert n. induction l as [|c l IH]; intros [|n]; cbn; auto.
Qed.

(** Bits 76 to 79 of a version-4 UUID spell the version. *)
Lemma uuid4_version (rand : Z) : Z.land (Z.shiftr (uuid4 rand) 76) 15 = 4%Z.
Proof.
  apply Z.bits_inj'. intros n Hn.
  rewrite Z.land_spec, Z.shiftr_spec by lia. unfold uuid4.
  rewrite !Z.lor_spec, !Z.land_spec, !Z.lnot_spec, !Z.lor_spec, !Z.land_spec,
    !Z.lnot_spec by lia.
  destruct (Z.lt_ge_cases n 4) as [Hlt | Hge].
  - assert (n = 0 \/ n = 1 \/ n = 2 \/ n = 3)%Z as [-> | [-> | [-> | ->]]] by lia;
      set (b := Z.testbit rand _); clearbody b; destruct b; reflexivity.
  - assert (Z.testbit 15 n = false) as ->.
    { apply Z.bits_above_log2; [lia|]. change (Z.log2 15) with 3%Z. lia. }
    assert (Z.testbit 4 n = false) as ->.
    { apply Z.bits_above_log2; [lia|]. change (Z.log2 4) with 2%Z. lia. }
    apply andb_false_r.
Qed.

(** X18.  The thirteenth of the sixteen hexadecimal characters of a
    generated session id is always [4], the version digit of the UUID:
    the id carries 60 random bits, not 64. *)
Theorem generate_session_id_version_digit (rand : Z) :
  String.get 20 (generate_session_id rand) = Some "4"%char.
Proof.
  unfold generate_session_id.
  change 20%nat with (12 + String.length "session_")%nat.
  rewrite <- append_correct2.
  rewrite (substring_correct1 (hex (uuid4 rand)) 0 16 12) by lia.
  unfold hex. rewrite get_string_of_list, nth_error_map.
  change (nth_error (rev (seq 0 32)) (12 + 0)) with (Some 19%nat).
  cbn [option_map]. change (4 * Z.of_nat 19)%Z with 76%Z.
  now rewrite uuid4_version.
Qed.

End UuidProps.

(** ** Endpoints *)

Module ApiProps.
Import Schemas MemoryService MemoryAPI MemoryRoutes Examples SessionProps.

Lemma verify_admin_access_iff keys api_key :
  _verify_admin_access keys api_key = true
  <-> api_key = Some (ADMIN_API_KEY keys) /\ ADMIN_API_KEY keys <> "".
Proof.
  unfold _verify_admin_access. destruct api_key as [key|].
  - rewrite andb_true_iff, negb_true_iff, String.eqb_eq, String.eqb_neq.
    split.
    + intros [-> Hne]. now split.
    + intros [[= ->] Hne]. now split.
  - split; [discriminate | intros [H _]; discriminate].
Qed.

(** X19.  [PUT /canon] is closed without the admin key: a request whose
    [X-API-Key] is missing or differs from the configured admin key is
    answered 403 and changes nothing, and when the configured key is the
    empty string, its default, every request is refused, the one sending
    an empty key included. *)
Theorem canon_endpoint_requires_admin_key
    keys settings CanonMemory_new BaseModel_attr now now' updates x_api_key w :
  x_api_key <> Some (ADMIN_API_KEY keys) \/ ADMIN_API_KEY keys = "" ->
  update_canon_memory keys settings CanonMemory_new BaseModel_attr now now'
    updates x_api_key w
  = (w, HTTPException 403 "Admin authorization required to modify canon memory").
Proof.
  intros Hkey. unfold update_canon_memory.
  destruct (_verify_admin_access keys x_api_key) eqn:Hv; [|reflexivity].
  apply verify_admin_access_iff in Hv as [Heq Hne].
  destruct Hkey; contradiction.
Qed.

Lemma canon_endpoint_requires_admin_key_witness :
  update_canon_memory default_api_keys default_settings strict_CanonMemory_new
    pydantic_attr 5000%Z 5001%Z [("locked", VBool false)] (Some "") canon_world
  = (canon_world,
     HTTPException 403 "Admin authorization required to modify canon memory").
Proof.
  apply canon_endpoint_requires_admin_key. right. reflexivity.
Defined.

(** A key that is no attribute of the record, at the end of the updates,
    changes nothing in what the loop produces. *)
Lemma apply_updates_ignored_key BaseModel_attr updates k v :
  is_field k = false ->
  BaseModel_attr k = false ->
  forall canon,
    apply_updates BaseModel_attr (updates ++ [(k, v)])%list canon
    = apply_updates BaseModel_attr updates canon.
Proof.
  intros Hfield Hattr.
  induction updates as [|[k' v'] rest IH]; intros canon; simpl.
  - unfold hasattr. now rewrite Hfield, Hattr.
  - destruct (hasattr BaseModel_attr canon k'); [|apply IH].
    destruct (setattr canon k' v') as [canon'|e]; simpl; [apply IH | reflexivity].
Qed.

(** X20.  The answer of a successful [PUT /canon] lists every key of the
    request under [updated_fields], applied or not: when a request whose
    last key is a public name that is no attribute of the record is
    answered with success, the answer reports that key as updated, while
    the store is left exactly as by the request without the key, which
    is answered with success as well. *)
Theorem canon_endpoint_reports_ignored_keys
    keys settings CanonMemory_new BaseModel_attr outcome now now' updates k v
    x_api_key w w' answer' :
  public_name k = true ->
  is_field k = false ->
  BaseModel_attr k = false ->
  let put body :=
    RoutesIO.update_canon_memory keys settings CanonMemory_new BaseModel_attr
      outcome now now' body x_api_key w in
  put (updates ++ [(k, v)])%list = (w', Response answer') ->
  updated_fields answer' = (map fst updates ++ [k])%list
  /\ exists answer,
       put updates = (w', Response answer)
       /\ updated_fields answer = map fst updates.
Proof.
  intros _ Hfield Hattr put. subst put. unfold RoutesIO.update_canon_memory.
  destruct (negb (_verify_admin_access keys x_api_key)); [discriminate|].
  assert (MemoryServiceIO.update_canon_memory settings CanonMemory_new
            BaseModel_attr outcome now (updates ++ [(k, v)])%list ADMIN_READY w
          = MemoryServiceIO.update_canon_memory settings CanonMemory_new
              BaseModel_attr outcome now updates ADMIN_READY w) as ->.
  { unfold MemoryServiceIO.update_canon_memory, try_except, mbind, M_bind, lift.
    simpl.
    destruct (MemoryService.get_canon_memory settings CanonMemory_new w)
      as [w1 [[canon|]|e]]; try reflexivity.
    now rewrite (apply_updates_ignored_key _ _ _ _ Hfield Hattr). }
  destruct (MemoryServiceIO.update_canon_memory settings CanonMemory_new
              BaseModel_attr outcome now updates ADMIN_READY w)
    as [w1 [[|]|e]]; try discriminate.
  intros [= <- <-]. simpl. split; [now rewrite map_app|].
  eexists. split; reflexivity.
Qed.

Lemma canon_endpoint_reports_ignored_keys_witness :
  let keys := {| ADMIN_API_KEY := "s3cret"; ADVISORY_API_KEY := "" |} in
  let put body :=
    RoutesIO.update_canon_memory keys default_settings strict_CanonMemory_new
      pydantic_attr MemoryServiceIO.Written 5000%Z 5001%Z body (Some "s3cret")
      canon_world in
  exists answer,
    put [("version", VStr "2.0.0")] = (fst (put [("version", VStr "2.0.0");
                                                 ("colour", VStr "red")]),
                                       Response answer)
    /\ updated_fields answer = ["version"].
Proof.
  intros keys put.
  destruct (canon_endpoint_reports_ignored_keys keys default_settings
              strict_CanonMemory_new pydantic_attr MemoryServiceIO.Written
              5000%Z 5001%Z [("version", VStr "2.0.0")] "colour" (VStr "red")
              (Some "s3cret") canon_world
              (fst (put [("version", VStr "2.0.0"); ("colour", VStr "red")]))
              {| updated_status := "success";
                 updated_message := "Canon memory updated successfully";
                 updated_timestamp := 5001%Z;
                 updated_fields := ["version"; "colour"] |})
    as (_ & answer & Hput & Hfields);
    [reflexivity | reflexivity | reflexivity | reflexivity |].
  exists answer. split; assumption.
Defined.

(** X21.  [GET /preferences/{user_id}] on a backend that answers never
    fails and never writes: the store is left as it was and the answer
    is the stored preferences of the user, or, for a user with nothing
    stored or with a record that cannot be read, the default preferences
    (balanced, 500 words, clarification questions on) under the requested
    user id, stamped with the time of the request. *)
Theorem preferences_endpoint_defaults
    settings UserPreferences_new now user_id w :
  (storage_type w = "redis" -> redis_up w = true) ->
  exists stored,
    snd (MemoryService.get_user_preferences settings UserPreferences_new user_id w)
      = Ok stored
    /\ get_user_preferences settings UserPreferences_new now user_id w
       = (w, Response
               match stored with
               | Some preferences => preferences
               | None => {| Schemas.user_id := user_id;
                            tone_preference := Some "balanced";
                            max_response_length := Some 500%Z;
                            enable_clarification_questions := true;
                            custom_settings := None;
                            updated_at := now |}
               end).
Proof.
  intros Hup. unfold get_user_preferences.
  destruct (WeaveProps.get_user_preferences_returns settings UserPreferences_new
              user_id w Hup) as [stored Hget].
  exists stored. rewrite Hget. split; [reflexivity|]. now destruct stored.
Qed.

(** A user with nothing stored, and the user whose preferences were
    saved a moment before. *)
Lemma preferences_endpoint_defaults_witness :
  snd (get_user_preferences default_settings strict_UserPreferences_new 9000%Z
         "user_456" file_world)
  = Response {| Schemas.user_id := "user_456";
                tone_preference := Some "balanced";
                max_response_length := Some 500%Z;
                enable_clarification_questions := true;
                custom_settings := None;
                updated_at := 9000%Z |}
  /\ (let w := fst (save_user_preferences default_settings 7000%Z
                      named_preferences file_world) in
      get_user_preferences default_settings strict_UserPreferences_new 9000%Z
        "user_456" w
      = (w, Response (stamp 7000%Z named_preferences))).
Proof.
  split.
  - destruct (preferences_endpoint_defaults default_settings
                strict_UserPreferences_new 9000%Z "user_456" file_world)
      as (stored & Hget & Hanswer); [discriminate|].
    rewrite Hanswer. vm_compute in Hget. injection Hget as <-. reflexivity.
  - intros w.
    destruct (preferences_endpoint_defaults default_settings
                strict_UserPreferences_new 9000%Z "user_456" w)
      as (stored & Hget & Hanswer); [discriminate|].
    rewrite Hanswer. vm_compute in Hget. injection Hget as <-. reflexivity.
Defined.

End ApiProps.

(** ** Chat endpoints and the prompt *)

Module ChatProps.
Import Schemas MemoryService MemoryAPI MemoryRoutes ChatAPI Examples SessionProps.

(** The weave for a session that is cached: the cached log, and nothing
    changes. *)
Lemma build_memory_context_cached
    settings UserPreferences_new CanonMemory_new session_id user_id tier w log :
  (storage_type w = "redis" -> redis_up w = true) ->
  _sessions w !! session_id = Some log ->
  exists context,
    build_memory_context settings UserPreferences_new CanonMemory_new
      session_id user_id tier w = (w, Ok context)
    /\ session_memory context = log
    /\ authorization_tier context = tier.
Proof.
  intros Hup Hlog. rewrite ComposeProps.build_memory_context_unfold.
  rewrite (get_session_history_cached _ _ _ _ Hlog).
  assert (exists preferences,
            preference_layer settings UserPreferences_new user_id w
            = (w, Ok preferences)) as [preferences ->].
  { unfold preference_layer. destruct user_id as [u|]; [|now eexists].
    destruct (Validation.is_empty u); [now eexists|].
    now apply WeaveProps.get_user_preferences_returns. }
  rewrite CanonProps.get_canon_memory_eq.
  destruct (snd (MemoryService.get_canon_memory settings CanonMemory_new w))
    as [canon|e] eqn:Hc.
  - eexists. repeat split.
  - exfalso. revert Hc. unfold MemoryService.get_canon_memory.
    now destruct (fs w !! _) as [[|data]|].
Qed.

(** The weave for a session that is cached leaves the store as it is,
    and when it returns it hands on the cached log under the given
    tier. *)
Lemma build_memory_context_cached_run
    settings UserPreferences_new CanonMemory_new session_id user_id tier w log :
  _sessions w !! session_id = Some log ->
  let run := build_memory_context settings UserPreferences_new CanonMemory_new
               session_id user_id tier w in
  fst run = w
  /\ forall context,
       snd run = Ok context ->
       session_memory context = log /\ authorization_tier context = tier.
Proof.
  intros Hlog run. subst run. rewrite ComposeProps.build_memory_context_unfold.
  rewrite (get_session_history_cached _ _ _ _ Hlog).
  pose proof (ComposeProps.preference_layer_pure settings UserPreferences_new
                user_id w) as Hp.
  destruct (preference_layer settings UserPreferences_new user_id w)
    as [w2 [preferences|e]]; simpl in Hp; subst w2;
    [|split; [reflexivity | discriminate]].
  rewrite CanonProps.get_canon_memory_eq.
  destruct (snd (MemoryService.get_canon_memory settings CanonMemory_new w))
    as [canon|e]; simpl; (split; [reflexivity|]); [|discriminate].
  intros context [= <-]. split; reflexivity.
Qed.

Section SendMessage.

Variable keys : ApiKeys.
Variable settings : Settings.
Variable UserPreferences_new : value -> option UserPreferences.
Variable CanonMemory_new : value -> option CanonMemory.
Variable generate_response : string -> MemoryContext -> string.
Variable harmonize_response : string -> option UserPreferences -> string.
Variable validate_response : string -> bool.

Let send := RoutesIO.send_message keys settings UserPreferences_new CanonMemory_new
              generate_response harmonize_response validate_response.

(** One [send_message] that is answered, step by step. *)
Lemma send_message_run
    write_user write_assistant readings request x_api_key w w' answer :
  send write_user write_assistant readings request x_api_key w
    = (w', Response answer) ->
  let session_id := request_session readings request in
  let tier := request_tier keys request x_api_key in
  let old := default [] (_sessions w !! session_id) in
  let user_turn := message_of (now_user readings, USER, request_message request) in
  exists context,
    session_memory context = (old ++ [user_turn])%list
    /\ authorization_tier context = tier
    /\ let harmonized :=
         harmonize_response (generate_response (request_message request) context)
           (user_preferences context) in
       let text := if negb (validate_response harmonized) then fallback_response
                   else harmonized in
       answer = {| response := text;
                   response_session_id := session_id;
                   model := "SLM-A1 (Anthroi-1)";
                   response_timestamp := now_response readings;
                   metadata_authorization_tier :=
                     Engine.AuthorizationTier_value tier;
                   metadata_user_id := request_user_id request |}
       /\ _sessions w' !! session_id
          = Some (old ++ [user_turn;
                          message_of (now_assistant readings, ASSISTANT, text)])%list.
Proof.
  intros Hsend session_id tier old user_turn. revert Hsend.
  subst send. unfold RoutesIO.send_message, RoutesIO.send_message_body, mbind, M_bind.
  fold session_id tier.
  destruct (StoreProps.io_add_message_cache settings write_user (now_user readings)
              session_id USER (request_message request) w) as (Hlog & _ & _).
  destruct (MemoryServiceIO.add_message_to_session settings write_user
              (now_user readings) session_id USER (request_message request) w)
    as [w1 [[]|e]]; [|discriminate].
  simpl in Hlog. fold old user_turn in Hlog.
  destruct (build_memory_context_cached_run settings UserPreferences_new
              CanonMemory_new session_id (request_user_id request) tier w1 _ Hlog)
    as [Hsame Hcontext].
  destruct (build_memory_context settings UserPreferences_new CanonMemory_new
              session_id (request_user_id request) tier w1)
    as [w2 [context|e]]; [|discriminate].
  simpl in Hsame. subst w2.
  destruct (Hcontext context eq_refl) as [Hmem Htier].
  set (harmonized :=
         harmonize_response (generate_response (request_message request) context)
           (user_preferences context)).
  set (text := if negb (validate_response harmonized) then fallback_response
               else harmonized).
  destruct (StoreProps.io_add_message_cache settings write_assistant
              (now_assistant readings) session_id ASSISTANT text w1)
    as (Hlog2 & _ & _).
  destruct (MemoryServiceIO.add_message_to_session settings write_assistant
              (now_assistant readings) session_id ASSISTANT text w1)
    as [w3 [[]|e]]; [|discriminate].
  simpl in Hlog2. intros [= <- <-].
  exists context. split; [exact Hmem|]. split; [exact Htier|].
  simpl. split; [reflexivity|].
  rewrite Hlog2, Hlog. simpl. now rewrite <- app_assoc.
Qed.

(** X22.  A [POST /message] that is answered has recorded both turns:
    the answer names the session (the one of the request, or a generated
    one), and the cached log of that session is the old log followed by
    the user's message and then by the text that was answered, in this
    order. *)
Theorem send_message_records_both_turns
    write_user write_assistant readings request x_api_key w w' answer :
  send write_user write_assistant readings request x_api_key w
    = (w', Response answer) ->
  let session_id := request_session readings request in
  let old := default [] (_sessions w !! session_id) in
  response_session_id answer = session_id
  /\ _sessions w' !! session_id
     = Some (old ++ [message_of (now_user readings, USER, request_message request);
                     message_of (now_assistant readings, ASSISTANT,
                                 response answer)])%list.
Proof.
  intros Hsend session_id old.
  destruct (send_message_run _ _ _ _ _ _ _ _ Hsend)
    as (context & _ & _ & Hanswer & Hlog).
  rewrite Hanswer. simpl. split; [reflexivity | exact Hlog].
Qed.

(** X23.  The tier a chat request runs under is the one its body names
    whenever that is not BASIC, whatever key the request carries, none
    included: when the request is answered, the context that was handed
    to the engine and the metadata of the answer both carry the tier of
    the body. *)
Theorem send_message_trusts_requested_tier
    write_user write_assistant readings request x_api_key w w' answer :
  request_authorization_tier request <> BASIC ->
  send write_user write_assistant readings request x_api_key w
    = (w', Response answer) ->
  exists context,
    response answer
    = (let harmonized :=
         harmonize_response
           (generate_response (request_message request) context)
           (user_preferences context) in
       if negb (validate_response harmonized) then fallback_response
       else harmonized)
    /\ authorization_tier context = request_authorization_tier request
    /\ metadata_authorization_tier answer
       = Engine.AuthorizationTier_value (request_authorization_tier request).
Proof.
  intros Htier Hsend.
  destruct (send_message_run _ _ _ _ _ _ _ _ Hsend)
    as (context & _ & Hctx & Hanswer & _).
  assert (request_tier keys request x_api_key = request_authorization_tier request)
    as Heq by (unfold request_tier; now destruct (request_authorization_tier request)).
  exists context. rewrite Hanswer. simpl. rewrite Heq in *. repeat split.
  exact Hctx.
Qed.

End SendMessage.

(** The engine without a provider, a tone service that changes nothing
    and accepts everything; both writes of the session file go through. *)
Lemma send_message_records_both_turns_witness :
  let request := {| request_message := "What is the purpose of Souent?";
                    request_session_id := Some "session_123";
                    request_user_id := None;
                    request_authorization_tier := BASIC |} in
  let readings := {| now_user := 1000%Z; now_assistant := 2000%Z;
                     now_response := 2001%Z; rand := 0%Z |} in
  let run :=
    RoutesIO.send_message default_api_keys default_settings
      strict_UserPreferences_new strict_CanonMemory_new
      (Engine.generate_response "" (fun _ => "") "mock" (fun _ => None)
         (fun _ _ => None))
      (fun text _ => text) (fun _ => true)
      MemoryServiceIO.Written MemoryServiceIO.Written readings request None
      file_world in
  exists text,
    _sessions (fst run) !! "session_123"
    = Some [message_of (1000%Z, USER, "What is the purpose of Souent?");
            message_of (2000%Z, ASSISTANT, text)].
Proof.
  intros request readings run.
  destruct (send_message_records_both_turns default_api_keys default_settings
              strict_UserPreferences_new strict_CanonMemory_new
              (Engine.generate_response "" (fun _ => "") "mock" (fun _ => None)
                 (fun _ _ => None))
              (fun text _ => text) (fun _ => true)
              MemoryServiceIO.Written MemoryServiceIO.Written readings request None
              file_world (fst run)
              {| response := Engine._generate_mock "What is the purpose of Souent?";
                 response_session_id := "session_123";
                 model := "SLM-A1 (Anthroi-1)";
                 response_timestamp := 2001%Z;
                 metadata_authorization_tier := "basic";
                 metadata_user_id := None |})
    as [_ Hlog]; [reflexivity|].
  eexists. exact Hlog.
Defined.

Lemma send_message_trusts_requested_tier_witness :
  let request := {| request_message := "unlock";
                    request_session_id := None;
                    request_user_id := None;
                    request_authorization_tier := ADMIN_READY |} in
  let readings := {| now_user := 1000%Z; now_assistant := 2000%Z;
                     now_response := 2001%Z; rand := 0%Z |} in
  let run :=
    RoutesIO.send_message default_api_keys default_settings
      strict_UserPreferences_new strict_CanonMemory_new (fun _ _ => "It is done.")
      (fun text _ => text) (fun _ => true)
      MemoryServiceIO.Written MemoryServiceIO.Written readings request None
      file_world in
  exists context,
    authorization_tier context = ADMIN_READY
    /\ snd run = Response {| response := "It is done.";
                             response_session_id := generate_session_id 0;
                             model := "SLM-A1 (Anthroi-1)";
                             response_timestamp := 2001%Z;
                             metadata_authorization_tier := "admin_ready";
                             metadata_user_id := None |}.
Proof.
  intros request readings run.
  destruct (send_message_trusts_requested_tier default_api_keys default_settings
              strict_UserPreferences_new strict_CanonMemory_new
              (fun _ _ => "It is done.") (fun text _ => text) (fun _ => true)
              MemoryServiceIO.Written MemoryServiceIO.Written readings request None
              file_world (fst run)
              {| response := "It is done.";
                 response_session_id := generate_session_id 0;
                 model := "SLM-A1 (Anthroi-1)";
                 response_timestamp := 2001%Z;
                 metadata_authorization_tier := "admin_ready";
                 metadata_user_id := None |})
    as (context & _ & Hctx & _); [discriminate | reflexivity |].
  exists context. split; [exact Hctx | reflexivity].
Defined.

(** When the first write is refused, as it is for a session name too
    long for the file system, the request is answered 500 before the
    engine is asked. *)
Example send_message_refused_write :
  let request := {| request_message := "hello";
                    request_session_id := Some "session_123";
                    request_user_id := None;
                    request_authorization_tier := BASIC |} in
  let readings := {| now_user := 1000%Z; now_assistant := 2000%Z;
                     now_response := 2001%Z; rand := 0%Z |} in
  snd (RoutesIO.send_message default_api_keys default_settings
         strict_UserPreferences_new strict_CanonMemory_new (fun _ _ => "")
         (fun text _ => text) (fun _ => true)
         MemoryServiceIO.Refused MemoryServiceIO.Written readings request None
         file_world)
  = HTTPException 500 "An error occurred processing your message. Please try again.".
Proof. reflexivity. Qed.

(** A clear that returns leaves the session unknown. *)
Lemma clear_session_unknown settings session_id w w' :
  MemoryService.clear_session settings session_id w = (w', Ok tt) ->
  unknown_session settings session_id w'.
Proof.
  unfold MemoryService.clear_session, remove, redis_delete, unknown_session,
    durable_session.
  simpl. intros Hclear. by_backend w; simpl in *.
  - destruct (fs w !! session_path settings session_id) eqn:Hfile;
      injection Hclear as <-; simpl;
      repeat match goal with H : String.eqb _ _ = _ |- _ => rewrite H end;
      rewrite ?lookup_delete_eq, ?Hfile; split; reflexivity.
  - injection Hclear as <-; simpl.
    repeat match goal with H : String.eqb _ _ = _ |- _ => rewrite H end.
    match goal with H : redis_up _ = _ |- _ => rewrite H end.
    rewrite !lookup_delete_eq. split; reflexivity.
  - discriminate.
  - injection Hclear as <-; simpl;
      repeat match goal with H : String.eqb _ _ = _ |- _ => rewrite H end;
      rewrite ?lookup_delete_eq; split; reflexivity.
Qed.

(** X24.  After a [DELETE /session/{id}] that succeeds, the history of
    the session is gone for the API: [GET /history/{id}] answers 404,
    naming the session, and changes nothing. *)
Theorem cleared_session_has_no_history settings now session_id w w' answer :
  ChatAPI.clear_session settings now session_id w = (w', Response answer) ->
  get_conversation_history settings session_id w'
  = (w', HTTPException 404
           ("No conversation history found for session " ++ session_id)).
Proof.
  unfold ChatAPI.clear_session, get_conversation_history.
  destruct (MemoryService.clear_session settings session_id w) as [w1 [[]|e]] eqn:Hclear;
    [|discriminate].
  intros [= <- _].
  now rewrite (get_session_history_unknown _ _ _
                 (clear_session_unknown _ _ _ _ Hclear)).
Qed.

Lemma cleared_session_has_no_history_witness :
  let w := add_messages default_settings "session_123" two_appends file_world in
  let w' := fst (ChatAPI.clear_session default_settings 3000%Z "session_123" w) in
  get_conversation_history default_settings "session_123" w'
  = (w', HTTPException 404 "No conversation history found for session session_123").
Proof.
  intros w w'.
  apply (cleared_session_has_no_history default_settings 3000%Z "session_123" w w'
           ("success", "Session session_123 cleared", 3000%Z)).
  subst w'. vm_compute. reflexivity.
Defined.

End ChatProps.

(** ** The prompt of the engine *)

Module EngineProps.
Import Schemas MemoryService Engine Examples SessionProps.

Lemma last_n_snoc {A} (n : nat) (l : list A) (x : A) :
  last_n (S n) (l ++ [x]) = (last_n n l ++ [x])%list.
Proof.
  unfold last_n. rewrite length_app. simpl.
  replace (length l + 1 - S n)%nat with (length l - n)%nat by lia.
  rewrite skipn_app.
  replace (length l - n - length l)%nat with 0%nat by lia.
  reflexivity.
Qed.

Lemma last_n_suffix {A} (n : nat) (l : list A) :
  l = (firstn (length l - n) l ++ last_n n l)%list
  /\ length (last_n n l) = Nat.min n (length l).
Proof.
  unfold last_n. split; [now rewrite firstn_skipn|].
  rewrite length_skipn. lia.
Qed.

Section Prompt.

Variable ANTHROI_1_SYSTEM_PROMPT : string.
Variable py_str : value -> string.

Let build := _build_message_history ANTHROI_1_SYSTEM_PROMPT py_str.

(** X25.  The prompt built for the provider, when building it does not
    raise, is the system entry, then the ten most recent messages of the
    session (all of them when there are fewer) in their order, then the
    current user message: between 2 and 12 entries. *)
Theorem build_message_history_shape user_message memory_context prompt :
  build user_message memory_context = Some prompt ->
  exists system_text older,
    session_memory memory_context
      = (older ++ last_n 10 (session_memory memory_context))%list
    /\ prompt
       = ({| chat_role := "system"; chat_content := system_text |}
          :: map chat_of (last_n 10 (session_memory memory_context))
          ++ [{| chat_role := "user"; chat_content := user_message |}])%list
    /\ length prompt
       = (2 + Nat.min 10 (length (session_memory memory_context)))%nat
    /\ (2 <= length prompt <= 12)%nat.
Proof.
  subst build. unfold _build_message_history.
  destruct (system_content _ _ memory_context) as [text|]; [|discriminate].
  intros [= <-].
  destruct (last_n_suffix 10 (session_memory memory_context)) as [Hsplit Hlen].
  exists text, (firstn (length (session_memory memory_context) - 10)
                  (session_memory memory_context)).
  split; [exact Hsplit|]. split; [reflexivity|].
  cbn [length]. rewrite length_app, length_map, Hlen. cbn [length]. lia.
Qed.

(** X26.  In [send_message] the user's message is appended to the session
    before the context is woven, so the prompt carries it twice: on a
    backend that answers, the context woven after the append ends with
    the user's turn, and every prompt built from it for the same message
    ends with two identical user entries. *)
Theorem prompt_repeats_current_message
    settings UserPreferences_new CanonMemory_new now session_id user_id tier
    user_message w :
  (storage_type w = "redis" -> redis_up w = true) ->
  let w1 := fst (add_message_to_session settings now session_id USER
                   user_message w) in
  exists memory_context,
    build_memory_context settings UserPreferences_new CanonMemory_new
      session_id user_id tier w1 = (w1, Ok memory_context)
    /\ forall prompt,
         build user_message memory_context = Some prompt ->
         exists before,
           prompt = (before
                     ++ [{| chat_role := "user"; chat_content := user_message |};
                         {| chat_role := "user"; chat_content := user_message |}])%list.
Proof.
  intros Hup w1.
  assert (_sessions w1 !! session_id
          = Some (default [] (_sessions w !! session_id)
                  ++ [message_of (now, USER, user_message)])%list) as Hlog
    by apply add_message_cache.
  assert (storage_type w1 = "redis" -> redis_up w1 = true) as Hup1.
  { destruct (StoreProps.add_message_backend settings now session_id USER
                user_message w) as [Hs Hr].
    fold w1 in Hs, Hr. rewrite Hs, Hr. exact Hup. }
  destruct (ChatProps.build_memory_context_cached settings UserPreferences_new
              CanonMemory_new session_id user_id tier w1 _ Hup1 Hlog)
    as (memory_context & Hweave & Hmem & _).
  exists memory_context. split; [exact Hweave|].
  intros prompt. subst build. unfold _build_message_history.
  destruct (system_content _ _ memory_context) as [text|]; [|discriminate].
  intros [= <-]. rewrite Hmem, last_n_snoc, map_app. cbn [map].
  eexists ({| chat_role := "system"; chat_content := text |} :: _).
  cbn [app]. rewrite <- app_assoc. reflexivity.
Qed.

End Prompt.

Lemma build_message_history_shape_witness :
  exists prompt,
    _build_message_history "You are Anthroi-1." (fun _ => "Anthroi-1")
      "And who develops it?"
      {| session_memory := map message_of two_appends;
         user_preferences := None;
         canon_memory := Some canon_record;
         authorization_tier := BASIC |}
    = Some prompt
    /\ length prompt = 4%nat.
Proof.
  eexists. split; [reflexivity|].
  destruct (build_message_history_shape "You are Anthroi-1." (fun _ => "Anthroi-1")
              "And who develops it?"
              {| session_memory := map message_of two_appends;
                 user_preferences := None;
                 canon_memory := Some canon_record;
                 authorization_tier := BASIC |} _ eq_refl)
    as (text & older & _ & _ & Hlen & _).
  exact Hlen.
Defined.

Lemma prompt_repeats_current_message_witness :
  let w1 := fst (add_message_to_session default_settings 1000%Z "session_123" USER
                   "What is the purpose of Souent?" file_world) in
  exists memory_context,
    build_memory_context default_settings strict_UserPreferences_new
      strict_CanonMemory_new "session_123" None BASIC w1 = (w1, Ok memory_context).
Proof.
  intros w1.
  destruct (prompt_repeats_current_message "" (fun _ => "") default_settings
              strict_UserPreferences_new strict_CanonMemory_new 1000%Z
              "session_123" None BASIC "What is the purpose of Souent?" file_world)
    as (memory_context & Hweave & _); [discriminate|].
  now exists memory_context.
Defined.

End EngineProps.
